(** * isItUpOrNot: the website status checker component

    A shallow embedding of [WebsiteStatusChecker] (src/App.jsx and its later
    revision with quick links): the URL normaliser [validateUrl] and the
    check orchestrator [checkWebsite], with the React state of the component
    passed explicitly and every call that leaves the component (state
    setters, [fetch], [response.json()], [console.error]) recorded in an
    effect log. *)

From Stdlib Require Import List NArith ZArith Bool Lia String Ascii.
From Stdlib Require Import SpecFloat DecimalString.
Import ListNotations.

Set Implicit Arguments.
Set Warnings "-register-all".

(** ** JavaScript strings *)

(** A JavaScript string is a sequence of 16-bit code units. *)
Definition jsstring := list N.

(** The code units of an ASCII literal of the source. *)
Definition js (s : string) : jsstring :=
  map N_of_ascii (list_ascii_of_string s).

Fixpoint jsstring_eqb (a b : jsstring) : bool :=
  match a, b with
  | [], [] => true
  | x :: a', y :: b' => N.eqb x y && jsstring_eqb a' b'
  | _, _ => false
  end.

(** [String.prototype.startsWith(searchString)], from position 0. *)
Fixpoint startsWith (s searchString : jsstring) {struct searchString} : bool :=
  match searchString, s with
  | [], _ => true
  | _ :: _, [] => false
  | c :: search', d :: s' => N.eqb c d && startsWith s' search'
  end.

(** WhiteSpace and LineTerminator code points of ECMAScript, all of them in
    the basic plane: TAB, LF, VT, FF, CR, SP, NBSP, U+1680, U+2000..U+200A,
    LS, PS, U+202F, U+205F, U+3000 and the byte order mark. *)
Definition isWhiteSpace (c : N) : bool :=
  ((9 <=? c) && (c <=? 13) || (c =? 32) || (c =? 160) || (c =? 5760)
   || (8192 <=? c) && (c <=? 8202) || (c =? 8232) || (c =? 8233)
   || (c =? 8239) || (c =? 8287) || (c =? 12288) || (c =? 65279))%N.

Fixpoint trimStart (s : jsstring) : jsstring :=
  match s with
  | [] => []
  | c :: s' => if isWhiteSpace c then trimStart s' else s
  end.

Definition trimEnd (s : jsstring) : jsstring := rev (trimStart (rev s)).

(** [String.prototype.trim]. *)
Definition trim (s : jsstring) : jsstring := trimEnd (trimStart s).

(** A string is truthy exactly when it is not empty. *)
Definition string_truthy (s : jsstring) : bool :=
  match s with [] => false | _ :: _ => true end.

(** The decimal rendering of a non-negative integer, as a template literal
    prints an HTTP status. *)
Definition N_to_jsstring (n : N) : jsstring :=
  js (NilZero.string_of_uint (N.to_uint n)).

(** ** JavaScript values *)

(** What [JSON.parse] (and so [response.json()]) can yield. Numbers are IEEE
    doubles; an object keeps its members in order. *)
Inductive Json : Type :=
| JNull
| JBool (b : bool)
| JNumber (x : spec_float)
| JString (s : jsstring)
| JArray (items : list Json)
| JObject (members : list (jsstring * Json)).

(** The values [checkWebsite] computes with: a JSON value, or [undefined]
    (what reading a missing property gives). *)
Inductive JsValue : Type :=
| undefined
| of_json (j : Json).

(** An object literal built by the component: its own properties in
    insertion order. *)
Definition JsObject := list (jsstring * JsValue).

Definition str (s : jsstring) : JsValue := of_json (JString s).
Definition num (x : spec_float) : JsValue := of_json (JNumber x).

(** The number literal [0]. *)
Definition zero : spec_float := S754_zero false.

(** ToBoolean: [undefined], [null], [false], [+0], [-0], [NaN] and the empty
    string are falsy, every other value (arrays and objects included) is
    truthy. *)
Definition truthy (v : JsValue) : bool :=
  match v with
  | undefined => false
  | of_json JNull => false
  | of_json (JBool b) => b
  | of_json (JNumber (S754_zero _)) => false
  | of_json (JNumber S754_nan) => false
  | of_json (JNumber _) => true
  | of_json (JString s) => string_truthy s
  | of_json (JArray _) => true
  | of_json (JObject _) => true
  end.

(** Thrown values: every exception the component can meet is an [Error]
    object, of which only [message] is read. *)
Record JsError : Type := mkError { message : jsstring }.

Inductive Completion (A : Type) : Type :=
| Normal (a : A)
| Throw (e : JsError).
Arguments Normal {A} a.
Arguments Throw {A} e.

(** Own-property lookup in a list of members; [JSON.parse] keeps the last of
    duplicate keys, so a parsed object has each key once. *)
Fixpoint lookup {V : Type} (k : jsstring) (members : list (jsstring * V)) : option V :=
  match members with
  | [] => None
  | (k', v) :: rest => if jsstring_eqb k k' then Some v else lookup k rest
  end.

(** [data.k] for one of the names [checkWebsite] reads ([status], [is_up],
    [response_time], [responseTime], [status_code], [statusCode],
    [message]): reading from [null] throws a TypeError whose text the engine
    chooses; an object gives its member or [undefined]; a boolean, number,
    string or array has none of these names (they are neither indices,
    [length], nor prototype members), so the read gives [undefined]. *)
Definition get (nullReadMessage : jsstring -> jsstring)
    (data : Json) (k : jsstring) : Completion JsValue :=
  match data with
  | JNull => Throw (mkError (nullReadMessage k))
  | JObject members =>
      Normal (match lookup k members with
              | Some v => of_json v
              | None => undefined
              end)
  | _ => Normal undefined
  end.

(** Defining a property on an object literal: an existing key keeps its
    place and takes the new value, a new key goes last. *)
Fixpoint set_property (k : jsstring) (v : JsValue) (o : JsObject) : JsObject :=
  match o with
  | [] => [(k, v)]
  | (k', v') :: rest =>
      if jsstring_eqb k k' then (k', v) :: rest
      else (k', v') :: set_property k v rest
  end.

Definition keys (o : JsObject) : list jsstring := map fst o.

(** ** The platform *)

Record RequestInit : Type := {
  method : jsstring;
  headers : list (jsstring * jsstring);
  body : jsstring
}.

(** The promise of [response.json()]. *)
Inductive JsonOutcome : Type :=
| JsonRejects (e : JsError)
| JsonResolves (data : Json).

Module Response.
Record t : Type := {
  ok : bool;
  status : N;
  json : JsonOutcome
}.
End Response.

(** The promise of [fetch(input, init)]. *)
Inductive FetchOutcome : Type :=
| FetchRejects (e : JsError)
| FetchResolves (response : Response.t).

(** What the browser supplies to the component and the repository does not
    define: the URL constructor (does [new URL(s)] return rather than
    throw), [JSON.stringify] on an object literal, the network behind
    [fetch], the clock behind [new Date().toISOString()] and [Date.now()],
    and the text of the TypeError for a property read from [null]. *)
Record Platform : Type := {
  URL_constructs : jsstring -> bool;
  JSON_stringify : JsObject -> jsstring;
  fetch : jsstring -> RequestInit -> FetchOutcome;
  Date_toISOString : jsstring;
  Date_now : spec_float;
  nullReadMessage : jsstring -> jsstring
}.

(** ** Component state and effects *)

(** The five [useState] cells of [WebsiteStatusChecker]; [status] is [null]
    ([None]) or a display record. *)
Record State : Type := {
  url : jsstring;
  status : option JsObject;
  loading : bool;
  error : jsstring;
  history : list JsObject
}.

(** [useState('')], [useState(null)], [useState(false)], [useState('')],
    [useState([])]. *)
Definition initialState : State :=
  {| url := []; status := None; loading := false; error := []; history := [] |}.

(** Every call that leaves [checkWebsite], in the order it is made. *)
Inductive Effect : Type :=
| SetUrl (v : jsstring)
| SetStatus (v : option JsObject)
| SetLoading (v : bool)
| SetError (v : jsstring)
| SetHistory (v : list JsObject)
| Fetch (input : jsstring) (init : RequestInit)
| ResponseJson
| ConsoleError (label : jsstring) (err : JsError).

Record Machine : Type := {
  component : State;
  effects : list Effect
}.

(** State, effect log and exceptions. *)
Definition M (A : Type) : Type := Machine -> Completion A * Machine.

Definition ret {A} (a : A) : M A := fun m => (Normal a, m).

Definition bind {A B} (c : M A) (k : A -> M B) : M B :=
  fun m =>
    match c m with
    | (Normal a, m') => k a m'
    | (Throw e, m') => (Throw e, m')
    end.

Definition throw {A} (e : JsError) : M A := fun m => (Throw e, m).

(** [try { body } catch (err) { handler } finally { finalizer }]: the
    finalizer runs on every path, and an exception of the handler is
    rethrown after it. *)
Definition try_catch_finally (tryBlock : M unit) (catchBlock : JsError -> M unit)
    (finallyBlock : M unit) : M unit :=
  fun m =>
    let r := match tryBlock m with
             | (Normal a, m') => (Normal a, m')
             | (Throw e, m') => catchBlock e m'
             end in
    match finallyBlock (snd r) with
    | (Normal _, m'') => (fst r, m'')
    | (Throw e, m'') => (Throw e, m'')
    end.

Module MNotations.
Declare Scope M_scope.
Delimit Scope M_scope with M.
Notation "x <- c ;; k" := (bind c (fun x => k))
  (at level 100, c at next level, right associativity) : M_scope.
Notation "c ;; k" := (bind c (fun _ => k))
  (at level 100, right associativity) : M_scope.
End MNotations.

Definition perform (e : Effect) (update : State -> State) : M unit :=
  fun m => (Normal tt,
            {| component := update (component m); effects := effects m ++ [e] |}).

Definition readState : M State := fun m => (Normal (component m), m).

Definition liftCompletion {A} (c : Completion A) : M A := fun m => (c, m).

Definition setUrl (v : jsstring) : M unit :=
  perform (SetUrl v) (fun s =>
    {| url := v; status := status s; loading := loading s;
       error := error s; history := history s |}).

Definition setStatus (v : option JsObject) : M unit :=
  perform (SetStatus v) (fun s =>
    {| url := url s; status := v; loading := loading s;
       error := error s; history := history s |}).

Definition setLoading (v : bool) : M unit :=
  perform (SetLoading v) (fun s =>
    {| url := url s; status := status s; loading := v;
       error := error s; history := history s |}).

Definition setError (v : jsstring) : M unit :=
  perform (SetError v) (fun s =>
    {| url := url s; status := status s; loading := loading s;
       error := v; history := history s |}).

(** [setHistory(updater)]: the updater is applied to the history of the
    moment. *)
Definition setHistory (updater : list JsObject -> list JsObject) : M unit :=
  fun m =>
    let v := updater (history (component m)) in
    perform (SetHistory v) (fun s =>
      {| url := url s; status := status s; loading := loading s;
         error := error s; history := v |}) m.

Definition console_error (label : jsstring) (err : JsError) : M unit :=
  perform (ConsoleError label err) (fun s => s).

(** ** The component *)

(** The two revisions of the component differ in two string constants (and
    in the [urlOverride] parameter, which src/App.jsx does not have). *)
Record Revision : Type := {
  invalidUrlMessage : jsstring;
  backendUrl : jsstring
}.

(** src/App.jsx. *)
Definition App_jsx : Revision := {|
  invalidUrlMessage :=
    js "Please enter a valid URL (e.g., google.com or https://google.com)";
  backendUrl :=
    js "https://nqs65ghim4dte2aghjwivmjkd40tlmmd.lambda-url.us-east-1.on.aws/"
|}.

(** The revision with the quick-link buttons. *)
Definition quick_links : Revision := {|
  invalidUrlMessage := js "Please enter a valid URL";
  backendUrl :=
    js "https://hsd3th6mthl6l33lyu5atx6r4q0qhyqt.lambda-url.us-east-1.on.aws/"
|}.

(** [urlOverride || url], with [None] for [null]: the override when it is a
    non-empty string, the [url] cell otherwise. *)
Definition override_or (urlOverride : option jsstring) (url : jsstring) : jsstring :=
  match urlOverride with
  | Some o => if string_truthy o then o else url
  | None => url
  end.

Section Component.
Import MNotations.
Local Open Scope M_scope.

Variable P : Platform.
Variable R : Revision.

(** [new URL(s)], of which only the exception is observed. *)
Definition new_URL (s : jsstring) : Completion unit :=
  if URL_constructs P s then Normal tt else Throw (mkError (js "Invalid URL")).

(** [validateUrl]; [None] is the [null] of the [catch] branch. *)
Definition validateUrl (urlString : jsstring) : option jsstring :=
  let tryBlock :=
    let urlString :=
      if negb (startsWith urlString (js "http://"))
         && negb (startsWith urlString (js "https://"))
      then js "https://" ++ urlString
      else urlString in
    match new_URL urlString with
    | Normal _ => Normal (Some urlString)
    | Throw e => Throw e
    end in
  match tryBlock with
  | Normal r => r
  | Throw _ => None
  end.

(** [await fetch(input, init)]. *)
Definition await_fetch (input : jsstring) (init : RequestInit) : M Response.t :=
  perform (Fetch input init) (fun s => s) ;;
  match fetch P input init with
  | FetchRejects e => throw e
  | FetchResolves response => ret response
  end.

(** [await response.json()]. *)
Definition await_json (response : Response.t) : M Json :=
  perform ResponseJson (fun s => s) ;;
  match Response.json response with
  | JsonRejects e => throw e
  | JsonResolves data => ret data
  end.

Definition read (data : Json) (k : jsstring) : M JsValue :=
  liftCompletion (get (nullReadMessage P) data k).

(** The object literal [result]; the right operand of each [||] is
    evaluated only when the left one is falsy. *)
Definition buildResult (validatedUrl : jsstring) (data : Json) : M JsObject :=
  status_ <- (s <- read data (js "status") ;;
              if truthy s then ret s
              else is_up <- read data (js "is_up") ;;
                   ret (if truthy is_up then str (js "UP") else str (js "DOWN"))) ;;
  responseTime <- (a <- read data (js "response_time") ;;
                   if truthy a then ret a
                   else b <- read data (js "responseTime") ;;
                        ret (if truthy b then b else num zero)) ;;
  let timestamp := str (Date_toISOString P) in
  statusCode <- (a <- read data (js "status_code") ;;
                 if truthy a then ret a
                 else read data (js "statusCode")) ;;
  message_ <- (a <- read data (js "message") ;;
               ret (if truthy a then a else str [])) ;;
  ret [ (js "url", str validatedUrl);
        (js "status", status_);
        (js "responseTime", responseTime);
        (js "timestamp", timestamp);
        (js "statusCode", statusCode);
        (js "message", message_) ].

(** The history entry [{...result, id: Date.now()}]. *)
Definition historyEntry (result : JsObject) : JsObject :=
  set_property (js "id") (num (Date_now P)) result.

(** The [fetch] options of a check, as [checkWebsite] writes them. *)
Definition requestInit (validatedUrl : jsstring) : RequestInit :=
  {| method := js "POST";
     headers := [ (js "Content-Type", js "application/json") ];
     body := JSON_stringify P [ (js "url", str validatedUrl) ] |}.

(** [checkWebsite(urlOverride)]; [None] is the default [null], with which
    it is the [checkWebsite()] of src/App.jsx. *)
Definition checkWebsite (urlOverride : option jsstring) : M unit :=
  st <- readState ;;
  let targetUrl := override_or urlOverride (url st) in
  if negb (string_truthy (trim targetUrl)) then
    setError (js "Please enter a website URL")
  else
    match validateUrl (trim targetUrl) with
    | None => setError (invalidUrlMessage R)
    | Some validatedUrl =>
      if negb (string_truthy validatedUrl) then
        setError (invalidUrlMessage R)
      else
        match urlOverride with
        | Some o => if string_truthy o then setUrl o else ret tt
        | None => ret tt
        end ;;
        setLoading true ;;
        setError [] ;;
        setStatus None ;;
        try_catch_finally
          (let payload := [ (js "url", str validatedUrl) ] in
           response <- await_fetch (backendUrl R)
                         {| method := js "POST";
                            headers := [ (js "Content-Type", js "application/json") ];
                            body := JSON_stringify P payload |} ;;
           (if negb (Response.ok response) then
              throw (mkError (js "HTTP error! status: "
                              ++ N_to_jsstring (Response.status response)))
            else ret tt) ;;
           data <- await_json response ;;
           result <- buildResult validatedUrl data ;;
           setStatus (Some result) ;;
           setHistory (fun prev => historyEntry result :: firstn 4 prev))
          (fun err =>
             setError (js "Failed to check website: " ++ message err
                       ++ js ". Please try again.") ;;
             console_error (js "Error:") err)
          (setLoading false)
    end.

End Component.

(** Running a call of [checkWebsite] on a component state, with an empty
    effect log. *)
Definition run (P : Platform) (R : Revision) (urlOverride : option jsstring)
    (st : State) : Completion unit * Machine :=
  checkWebsite P R urlOverride {| component := st; effects := [] |}.

Definition stateAfter (P : Platform) (R : Revision) (urlOverride : option jsstring)
    (st : State) : State :=
  component (snd (run P R urlOverride st)).

Definition effectsOf (P : Platform) (R : Revision) (urlOverride : option jsstring)
    (st : State) : list Effect :=
  effects (snd (run P R urlOverride st)).

(** ** A session: the user types into the input and starts checks *)

Inductive UserEvent : Type :=
| Typed (text : jsstring)
| Checked (P : Platform) (urlOverride : option jsstring).

(** [onChange] is [setUrl(e.target.value)]; a click or Enter is a call of
    [checkWebsite], run to its end before the next event. *)
Definition handle (R : Revision) (st : State) (ev : UserEvent) : State :=
  match ev with
  | Typed text =>
      {| url := text; status := status st; loading := loading st;
         error := error st; history := history st |}
  | Checked P urlOverride => stateAfter P R urlOverride st
  end.

Definition session (R : Revision) (evs : list UserEvent) (st : State) : State :=
  fold_left (handle R) evs st.

(** A check is successful when it set a display record. *)
Definition isRecordSet (e : Effect) : bool :=
  match e with SetStatus (Some _) => true | _ => false end.

Definition successful (P : Platform) (R : Revision) (urlOverride : option jsstring)
    (st : State) : bool :=
  existsb isRecordSet (effectsOf P R urlOverride st).

(** Every check of the session is successful. *)
Fixpoint allSuccessful (R : Revision) (evs : list UserEvent) (st : State) : Prop :=
  match evs with
  | [] => True
  | ev :: rest =>
      match ev with
      | Typed _ => True
      | Checked P o => successful P R o st = true
      end /\ allSuccessful R rest (handle R st ev)
  end.

(** The history entries the checks of a session produced, newest first and
    without bound: for each check that left a display record, that record
    with the [id] of the moment. *)
Fixpoint produced (R : Revision) (evs : list UserEvent) (st : State) : list JsObject :=
  match evs with
  | [] => []
  | ev :: rest =>
      produced R rest (handle R st ev) ++
      match ev with
      | Typed _ => []
      | Checked P o =>
          if successful P R o st then
            match status (handle R st ev) with
            | Some result => [historyEntry P result]
            | None => []
            end
          else []
      end
  end.

Definition isCheck (ev : UserEvent) : bool :=
  match ev with Checked _ _ => true | Typed _ => false end.

Definition isFetch (e : Effect) : bool :=
  match e with Fetch _ _ => true | _ => false end.

Definition isConsoleError (e : Effect) : bool :=
  match e with ConsoleError _ _ => true | _ => false end.

(** A call that shows an error message ([setError('')] clears it). *)
Definition isErrorReport (e : Effect) : bool :=
  match e with SetError (_ :: _) => true | _ => false end.

Definition isHistoryUpdate (e : Effect) : bool :=
  match e with SetHistory _ => true | _ => false end.

(** The text [checkWebsite] shows for a caught exception. *)
Definition failureMessage (err : JsError) : jsstring :=
  js "Failed to check website: " ++ message err ++ js ". Please try again.".

(** The display record of a JSON response, field by field. *)
Definition displayRecord (url_ status_ responseTime timestamp statusCode message_ : JsValue)
    : JsObject :=
  [ (js "url", url_); (js "status", status_); (js "responseTime", responseTime);
    (js "timestamp", timestamp); (js "statusCode", statusCode);
    (js "message", message_) ].

(** ** A concrete platform, for running the component *)

Module Sample.

Definition isLowerAlpha (c : N) : bool := ((97 <=? c) && (c <=? 122))%N.

(** Lower-case labels separated by single dots, such as [google.com]. *)
Fixpoint isDomain (labelStart : bool) (s : jsstring) : bool :=
  match s with
  | [] => negb labelStart
  | c :: s' =>
      if isLowerAlpha c then isDomain false s'
      else if (c =? 46)%N then negb labelStart && isDomain true s'
      else false
  end.

(** A part of what the URL constructor accepts: [http://] or [https://]
    followed by such a domain. The constructor accepts every string this
    accepts, and rejects the strings with a space in the host that this
    rejects. *)
Definition acceptsURL (s : jsstring) : bool :=
  (startsWith s (js "https://") && isDomain true (skipn 8 s))
  || (startsWith s (js "http://") && isDomain true (skipn 7 s)).

Definition quote (s : jsstring) : jsstring :=
  [34%N] ++ flat_map (fun c => if ((c =? 34) || (c =? 92))%N then [92%N; c] else [c]) s
  ++ [34%N].

Fixpoint members (o : JsObject) : list jsstring :=
  match o with
  | [] => []
  | (k, of_json (JString v)) :: rest => (quote k ++ js ":" ++ quote v) :: members rest
  | _ :: rest => members rest
  end.

Fixpoint join (parts : list jsstring) : jsstring :=
  match parts with
  | [] => []
  | [p] => p
  | p :: rest => p ++ js "," ++ join rest
  end.

(** [JSON.stringify] on an object literal whose values are strings of
    printable ASCII (the payloads of this component, for such URLs). *)
Definition stringify (o : JsObject) : jsstring :=
  js "{" ++ join (members o) ++ js "}".

(** A platform whose network answers every request with [outcome]. *)
Definition platform (outcome : FetchOutcome) : Platform :=
  {| URL_constructs := acceptsURL;
     JSON_stringify := stringify;
     fetch := fun _ _ => outcome;
     Date_toISOString := js "2025-01-01T00:00:00.000Z";
     Date_now := S754_finite false 1735689600000 0;
     nullReadMessage := fun k =>
       js "Cannot read properties of null (reading '" ++ k ++ js "')" |}.

Definition respond (ok : bool) (status : N) (body : JsonOutcome) : FetchOutcome :=
  FetchResolves {| Response.ok := ok; Response.status := status; Response.json := body |}.

(** [{"is_up": true, "response_time": 120, "status_code": 200}]. *)
Definition upBody : Json :=
  JObject [ (js "is_up", JBool true);
            (js "response_time", JNumber (S754_finite false 120 0));
            (js "status_code", JNumber (S754_finite false 200 0)) ].

Definition up : Platform := platform (respond true 200 (JsonResolves upBody)).
Definition offline : Platform :=
  platform (FetchRejects (mkError (js "Failed to fetch"))).
Definition serverError : Platform :=
  platform (respond false 500 (JsonResolves JNull)).
Definition nullBody : Platform := platform (respond true 200 (JsonResolves JNull)).
Definition emptyObject : Platform :=
  platform (respond true 200 (JsonResolves (JObject []))).

(** The user has typed [google.com]. *)
Definition typed : State :=
  {| url := js "google.com"; status := None; loading := false;
     error := []; history := [] |}.

End Sample.

(** ** Vocabulary of the statements *)

(** [a || b]: the left operand when it is truthy, the right one otherwise. *)
Definition or_else (a b : JsValue) : JsValue := if truthy a then a else b.

(** The value of [data.k] for a [data] other than [null]. *)
Definition field (data : Json) (k : jsstring) : JsValue :=
  match data with
  | JObject members =>
      match lookup k members with
      | Some v => of_json v
      | None => undefined
      end
  | _ => undefined
  end.

(** The display record [checkWebsite] builds from a response body other than
    [null]. *)
Definition recordOf (P : Platform) (validatedUrl : jsstring) (data : Json) : JsObject :=
  displayRecord
    (str validatedUrl)
    (or_else (field data (js "status"))
             (if truthy (field data (js "is_up")) then str (js "UP") else str (js "DOWN")))
    (or_else (or_else (field data (js "response_time")) (field data (js "responseTime")))
             (num zero))
    (str (Date_toISOString P))
    (or_else (field data (js "status_code")) (field data (js "statusCode")))
    (or_else (field data (js "message")) (str [])).

(** The error of a response that is not ok. *)
Definition httpError (status : N) : JsError :=
  mkError (js "HTTP error! status: " ++ N_to_jsstring status).

(** How the [try] block of a check with the validated URL [u] ends: the
    effects after the [fetch] call, and the exception caught or the display
    record built. *)
Definition attempt (P : Platform) (R : Revision) (u : jsstring)
    : list Effect * (JsError + JsObject) :=
  match fetch P (backendUrl R) (requestInit P u) with
  | FetchRejects e => ([], inl e)
  | FetchResolves response =>
      if Response.ok response then
        match Response.json response with
        | JsonRejects e => ([ResponseJson], inl e)
        | JsonResolves JNull =>
            ([ResponseJson], inl (mkError (nullReadMessage P (js "status"))))
        | JsonResolves data => ([ResponseJson], inr (recordOf P u data))
        end
      else ([], inl (httpError (Response.status response)))
  end.

(** The effects of an accepted check up to its [fetch] call. *)
Definition prelude (P : Platform) (R : Revision) (urlOverride : option jsstring)
    (u : jsstring) : list Effect :=
  match urlOverride with
  | Some o => if string_truthy o then [SetUrl o] else []
  | None => []
  end ++ [SetLoading true; SetError []; SetStatus None;
          Fetch (backendUrl R) (requestInit P u)].

Definition rejectedState (st : State) (msg : jsstring) : State :=
  {| url := url st; status := status st; loading := loading st;
     error := msg; history := history st |}.

Definition failedState (urlOverride : option jsstring) (st : State) (e : JsError) : State :=
  {| url := override_or urlOverride (url st); status := None; loading := false;
     error := failureMessage e; history := history st |}.

Definition succeededState (P : Platform) (urlOverride : option jsstring) (st : State)
    (result : JsObject) : State :=
  {| url := override_or urlOverride (url st); status := Some result; loading := false;
     error := []; history := historyEntry P result :: firstn 4 (history st) |}.

(** The input [checkWebsite] validates: [targetUrl.trim()]. *)
Definition trimmedTarget (urlOverride : option jsstring) (st : State) : jsstring :=
  trim (override_or urlOverride (url st)).

(** The effects that close a check, after those of [attempt]. *)
Definition epilogue (P : Platform) (st : State) (outcome : JsError + JsObject)
    : list Effect :=
  match outcome with
  | inl e => [SetError (failureMessage e); ConsoleError (js "Error:") e]
  | inr result =>
      [SetStatus (Some result);
       SetHistory (historyEntry P result :: firstn 4 (history st))]
  end ++ [SetLoading false].

Definition settledState (P : Platform) (urlOverride : option jsstring) (st : State)
    (outcome : JsError + JsObject) : State :=
  match outcome with
  | inl e => failedState urlOverride st e
  | inr result => succeededState P urlOverride st result
  end.

Definition emptyInputMessage : jsstring := js "Please enter a website URL".

Definition isJsonRead (e : Effect) : bool :=
  match e with ResponseJson => true | _ => false end.

(** The six field names of a display record, in the order of the literal. *)
Definition displayFields : list jsstring :=
  [js "url"; js "status"; js "responseTime"; js "timestamp"; js "statusCode";
   js "message"].

(** ** The handlers and helpers around [checkWebsite] *)

(** [handleKeyPress(e)], of which only [e.key] is read: Enter starts a
    check without override. *)
Definition handleKeyPress (P : Platform) (R : Revision) (key : jsstring) : M unit :=
  if jsstring_eqb key (js "Enter") then checkWebsite P R None else ret tt.

(** [v === 'literal']: true for the string with these code units only. *)
Definition strictEqualsString (v : JsValue) (literal : jsstring) : bool :=
  match v with
  | of_json (JString s) => jsstring_eqb s literal
  | _ => false
  end.

Definition getStatusColor (statusValue : JsValue) : jsstring :=
  if strictEqualsString statusValue (js "UP")
  then js "text-green-500" else js "text-red-500".

Definition getStatusBgColor (statusValue : JsValue) : jsstring :=
  if strictEqualsString statusValue (js "UP")
  then js "bg-green-50 border-green-200" else js "bg-red-50 border-red-200".

(** [o.k] on an object literal of the component: [undefined] for a key it
    does not have. *)
Definition prop (o : JsObject) (k : jsstring) : JsValue :=
  match lookup k o with
  | Some v => v
  | None => undefined
  end.

Module Site.
Record t : Type := { name : jsstring; url : jsstring }.
End Site.

Definition popularSitesLeft : list Site.t :=
  [ {| Site.name := js "Google"; Site.url := js "google.com" |};
    {| Site.name := js "Facebook"; Site.url := js "facebook.com" |};
    {| Site.name := js "YouTube"; Site.url := js "youtube.com" |};
    {| Site.name := js "Twitter"; Site.url := js "twitter.com" |} ].

Definition popularSitesRight : list Site.t :=
  [ {| Site.name := js "Amazon"; Site.url := js "amazon.com" |};
    {| Site.name := js "Netflix"; Site.url := js "netflix.com" |};
    {| Site.name := js "LinkedIn"; Site.url := js "linkedin.com" |};
    {| Site.name := js "GitHub"; Site.url := js "github.com" |} ].

(** The [onClick] of a [QuickLinkButton]: [checkWebsite(site.url)]. *)
Definition quickLinkClick (P : Platform) (R : Revision) (site : Site.t) : M unit :=
  checkWebsite P R (Some (Site.url site)).

(** The history entry of a display record set at the clock value [now]:
    the fields of the record, then [id]. *)
Definition withId (shown : JsObject * spec_float) : JsObject :=
  fst shown ++ [(js "id", num (snd shown))].

(** The number of successful checks of a session. *)
Fixpoint successes (R : Revision) (evs : list UserEvent) (st : State) : nat :=
  match evs with
  | [] => 0
  | ev :: rest =>
      match ev with
      | Typed _ => 0
      | Checked P o => if successful P R o st then 1 else 0
      end + successes R rest (handle R st ev)
  end.

(** The display records the successful checks of a session set (the status
    cell after each of them), each with the [Date.now()] of its check,
    newest first. *)
Fixpoint shown (R : Revision) (evs : list UserEvent) (st : State)
    : list (JsObject * spec_float) :=
  match evs with
  | [] => []
  | ev :: rest =>
      shown R rest (handle R st ev) ++
      match ev with
      | Typed _ => []
      | Checked P o =>
          if successful P R o st then
            match status (handle R st ev) with
            | Some record => [(record, Date_now P)]
            | None => []
            end
          else []
      end
  end.

(** The state with other text in the input. *)
Definition withUrl (st : State) (text : jsstring) : State :=
  {| url := text; status := status st; loading := loading st;
     error := error st; history := history st |}.

(** The shape of a history entry: the six display fields and [id], with a
    [status] that is not falsy and a [url] that carries a scheme. *)
Definition entryShape (entry : JsObject) : Prop :=
  keys entry = displayFields ++ [js "id"]
  /\ truthy (prop entry (js "status")) = true
  /\ exists u, prop entry (js "url") = str u
              /\ (startsWith u (js "http://") = true
                  \/ startsWith u (js "https://") = true).

(** The states between two events of a session. *)
Definition Settled (st : State) : Prop :=
  loading st = false
  /\ List.length (history st) <= 5
  /\ Forall entryShape (history st)
  /\ match status st with
     | Some record => keys record = displayFields
     | None => True
     end.

(** ** Strings *)

Arguments js : simpl never.
Arguments N_to_jsstring : simpl never.

Lemma startsWith_app (prefix s : jsstring) : startsWith (prefix ++ s) prefix = true.
Proof.
  induction prefix as [|c prefix IH]; simpl.
  - reflexivity.
  - now rewrite N.eqb_refl, IH.
Qed.

Lemma startsWith_truthy (s prefix : jsstring) :
  startsWith s prefix = true -> string_truthy prefix = true -> string_truthy s = true.
Proof.
  destruct prefix as [|c prefix]; [discriminate|].
  destruct s; simpl; [discriminate | reflexivity].
Qed.

Example trim_both_ends : trim (js "  google.com ") = js "google.com".
Proof. reflexivity. Qed.

Example trim_blank : trim (js "   ") = [].
Proof. reflexivity. Qed.

Example startsWith_scheme :
  startsWith (js "http://a.b") (js "http://") = true
  /\ startsWith (js "http://a.b") (js "https://") = false
  /\ startsWith (js "http") (js "http://") = false.
Proof. repeat split. Qed.

Example status_500_text : N_to_jsstring 500 = js "500".
Proof. reflexivity. Qed.

(** ** The normaliser *)

(** The string [validateUrl] hands to the URL constructor. *)
Lemma validateUrl_unfold (P : Platform) (s : jsstring) :
  validateUrl P s =
    (let u := if negb (startsWith s (js "http://")) && negb (startsWith s (js "https://"))
              then js "https://" ++ s else s in
     if URL_constructs P u then Some u else None).
Proof.
  unfold validateUrl, new_URL.
  destruct (negb (startsWith s (js "http://")) && negb (startsWith s (js "https://")));
    cbv zeta; now destruct (URL_constructs P _).
Qed.

Lemma validateUrl_Some (P : Platform) (s u : jsstring) :
  validateUrl P s = Some u ->
  URL_constructs P u = true
  /\ (startsWith u (js "http://") = true \/ startsWith u (js "https://") = true).
Proof.
  rewrite validateUrl_unfold. cbv zeta.
  destruct (startsWith s (js "http://")) eqn:Hhttp;
    destruct (startsWith s (js "https://")) eqn:Hhttps; simpl;
    destruct (URL_constructs P _) eqn:Hurl; try discriminate;
    intros [= <-]; split; auto using startsWith_app.
Qed.

Lemma validateUrl_truthy (P : Platform) (s u : jsstring) :
  validateUrl P s = Some u -> string_truthy u = true.
Proof.
  intros H. destruct (validateUrl_Some _ _ H) as [_ [Hp|Hp]];
    eapply startsWith_truthy; eauto.
Qed.

(** ** The orchestrator *)

Lemma get_field (nullMessage : jsstring -> jsstring) (data : Json) (k : jsstring) :
  data <> JNull -> get nullMessage data k = Normal (field data k).
Proof. destruct data; intros H; try reflexivity. now elim H. Qed.

Lemma buildResult_nonnull (P : Platform) (u : jsstring) (data : Json) (m : Machine) :
  data <> JNull -> buildResult P u data m = (Normal (recordOf P u data), m).
Proof.
  intros H. unfold buildResult, read, liftCompletion, bind, ret.
  rewrite !(get_field _ _ H).
  unfold recordOf, or_else.
  destruct (truthy (field data (js "status")));
    destruct (truthy (field data (js "response_time"))) eqn:Htime;
    destruct (truthy (field data (js "status_code")));
    cbv iota; rewrite ?Htime; reflexivity.
Qed.

Lemma buildResult_null (P : Platform) (u : jsstring) (m : Machine) :
  buildResult P u JNull m = (Throw (mkError (nullReadMessage P (js "status"))), m).
Proof. reflexivity. Qed.

Section Runs.

Variable P : Platform.
Variable R : Revision.
Variable urlOverride : option jsstring.
Variable st : State.

Lemma run_rejected_empty :
  string_truthy (trimmedTarget urlOverride st) = false ->
  run P R urlOverride st =
    (Normal tt, {| component := rejectedState st emptyInputMessage;
                   effects := [SetError emptyInputMessage] |}).
Proof.
  unfold trimmedTarget. intros H.
  unfold run, checkWebsite, bind, readState. cbv [component].
  rewrite H. reflexivity.
Qed.

Lemma run_rejected_invalid :
  string_truthy (trimmedTarget urlOverride st) = true ->
  validateUrl P (trimmedTarget urlOverride st) = None ->
  run P R urlOverride st =
    (Normal tt, {| component := rejectedState st (invalidUrlMessage R);
                   effects := [SetError (invalidUrlMessage R)] |}).
Proof.
  unfold trimmedTarget. intros H Hv.
  unfold run, checkWebsite, bind, readState. cbv [component].
  rewrite H, Hv. reflexivity.
Qed.

Lemma run_accepted (u : jsstring) :
  string_truthy (trimmedTarget urlOverride st) = true ->
  validateUrl P (trimmedTarget urlOverride st) = Some u ->
  run P R urlOverride st =
    (Normal tt,
     {| component := settledState P urlOverride st (snd (attempt P R u));
        effects := prelude P R urlOverride u ++ fst (attempt P R u)
                   ++ epilogue P st (snd (attempt P R u)) |}).
Proof.
  unfold trimmedTarget. intros H Hv.
  pose proof (validateUrl_truthy _ _ Hv) as Hu.
  unfold run, checkWebsite, bind at 1, readState. cbv [component].
  rewrite H, Hv, Hu. cbv [negb].
  unfold attempt, prelude, try_catch_finally, await_fetch, await_json.
  change {| method := js "POST";
            headers := [(js "Content-Type", js "application/json")];
            body := JSON_stringify P [(js "url", str u)] |}
    with (requestInit P u).
  destruct urlOverride as [o|]; [destruct (string_truthy o) eqn:Ho|];
    (destruct (fetch P (backendUrl R) (requestInit P u)) as [e|response] eqn:Hf;
     [| destruct (Response.ok response) eqn:Hok;
        [ destruct (Response.json response) as [e|data] eqn:Hj;
          [| destruct data ] |] ]);
    do 4 (cbv [bind perform setUrl setLoading setError setStatus setHistory
               console_error throw ret component effects override_or fst snd negb
               settledState failedState succeededState];
          rewrite ?Ho, ?Hf, ?Hok, ?Hj);
    rewrite ?buildResult_null;
    try (rewrite buildResult_nonnull by discriminate);
    reflexivity.
Qed.


Lemma attempt_effects (u : jsstring) :
  fst (attempt P R u) = [] \/ fst (attempt P R u) = [ResponseJson].
Proof.
  unfold attempt.
  destruct (fetch P (backendUrl R) (requestInit P u)) as [e|response]; auto.
  destruct (Response.ok response); auto.
  destruct (Response.json response) as [e|[]]; auto.
Qed.

Lemma effectsOf_accepted (u : jsstring) :
  string_truthy (trimmedTarget urlOverride st) = true ->
  validateUrl P (trimmedTarget urlOverride st) = Some u ->
  effectsOf P R urlOverride st =
    prelude P R urlOverride u ++ fst (attempt P R u)
    ++ epilogue P st (snd (attempt P R u)).
Proof. intros H Hv. unfold effectsOf. now rewrite (run_accepted H Hv). Qed.

Lemma stateAfter_accepted (u : jsstring) :
  string_truthy (trimmedTarget urlOverride st) = true ->
  validateUrl P (trimmedTarget urlOverride st) = Some u ->
  stateAfter P R urlOverride st = settledState P urlOverride st (snd (attempt P R u)).
Proof. intros H Hv. unfold stateAfter. now rewrite (run_accepted H Hv). Qed.

(** The three ways a call can go. *)
Lemma run_cases :
  (string_truthy (trimmedTarget urlOverride st) = false
   /\ run P R urlOverride st =
        (Normal tt, {| component := rejectedState st emptyInputMessage;
                       effects := [SetError emptyInputMessage] |}))
  \/ (string_truthy (trimmedTarget urlOverride st) = true
      /\ validateUrl P (trimmedTarget urlOverride st) = None
      /\ run P R urlOverride st =
           (Normal tt, {| component := rejectedState st (invalidUrlMessage R);
                          effects := [SetError (invalidUrlMessage R)] |}))
  \/ (exists u,
        string_truthy (trimmedTarget urlOverride st) = true
        /\ validateUrl P (trimmedTarget urlOverride st) = Some u
        /\ run P R urlOverride st =
             (Normal tt,
              {| component := settledState P urlOverride st (snd (attempt P R u));
                 effects := prelude P R urlOverride u ++ fst (attempt P R u)
                            ++ epilogue P st (snd (attempt P R u)) |})).
Proof.
  destruct (string_truthy (trimmedTarget urlOverride st)) eqn:H.
  - destruct (validateUrl P (trimmedTarget urlOverride st)) as [u|] eqn:Hv.
    + right; right. exists u. auto using run_accepted.
    + right; left. auto using run_rejected_invalid.
  - left. auto using run_rejected_empty.
Qed.

(** Counting in the effects of an accepted check. *)
Lemma filter_accepted (keep : Effect -> bool) (u : jsstring) (outcome : JsError + JsObject) :
  filter keep (prelude P R urlOverride u ++ fst (attempt P R u) ++ epilogue P st outcome)
  = filter keep (prelude P R urlOverride u)
    ++ filter keep (fst (attempt P R u)) ++ filter keep (epilogue P st outcome).
Proof. now rewrite !filter_app. Qed.

Lemma fetches_of_prelude (u : jsstring) :
  filter isFetch (prelude P R urlOverride u) = [Fetch (backendUrl R) (requestInit P u)].
Proof.
  unfold prelude. destruct urlOverride as [o|]; [destruct (string_truthy o)|]; reflexivity.
Qed.

Lemma fetches_of_attempt (u : jsstring) : filter isFetch (fst (attempt P R u)) = [].
Proof. destruct (attempt_effects u) as [-> | ->]; reflexivity. Qed.

Lemma fetches_of_epilogue (outcome : JsError + JsObject) :
  filter isFetch (epilogue P st outcome) = [].
Proof. destruct outcome; reflexivity. Qed.

Lemma fetches_accepted (u : jsstring) :
  string_truthy (trimmedTarget urlOverride st) = true ->
  validateUrl P (trimmedTarget urlOverride st) = Some u ->
  filter isFetch (effectsOf P R urlOverride st) = [Fetch (backendUrl R) (requestInit P u)].
Proof.
  intros H Hv. rewrite (effectsOf_accepted H Hv), filter_accepted.
  now rewrite fetches_of_prelude, fetches_of_attempt, fetches_of_epilogue.
Qed.

End Runs.

(** A first check of [google.com] from src/App.jsx, against a backend that
    answers [{"is_up": true, ...}]: the calls it makes, in order. *)
Example first_check_effects :
  let result := recordOf Sample.up (js "https://google.com") Sample.upBody in
  effectsOf Sample.up App_jsx None Sample.typed =
    [SetLoading true; SetError []; SetStatus None;
     Fetch (backendUrl App_jsx) (requestInit Sample.up (js "https://google.com"));
     ResponseJson; SetStatus (Some result);
     SetHistory [historyEntry Sample.up result]; SetLoading false]
  /\ lookup (js "status") result = Some (str (js "UP"))
  /\ keys (historyEntry Sample.up result) = displayFields ++ [js "id"].
Proof. repeat split. Qed.

(** A quick link sets the [url] cell first. *)
Example quick_link_effects :
  firstn 2 (effectsOf Sample.up quick_links (Some (js "github.com")) initialState)
  = [SetUrl (js "github.com"); SetLoading true].
Proof. reflexivity. Qed.

(** ** Properties of the normaliser *)

(** C1. A string that starts with neither [http://] nor [https://] is
    validated with [https://] in front of it, and a string that starts with
    one of them is validated as it is; when the URL constructor accepts the
    string so obtained, [validateUrl] returns exactly that string (and
    [null] when it does not). *)
Theorem validateUrl_default_scheme (P : Platform) (s : jsstring) :
  (startsWith s (js "http://") = false ->
   startsWith s (js "https://") = false ->
   (URL_constructs P (js "https://" ++ s) = true ->
    validateUrl P s = Some (js "https://" ++ s))
   /\ (URL_constructs P (js "https://" ++ s) = false -> validateUrl P s = None))
  /\ (startsWith s (js "http://") = true \/ startsWith s (js "https://") = true ->
      (URL_constructs P s = true -> validateUrl P s = Some s)
      /\ (URL_constructs P s = false -> validateUrl P s = None)).
Proof.
  rewrite validateUrl_unfold. cbv zeta. split.
  - intros -> ->. simpl. split; intros ->; reflexivity.
  - intros [-> | ->]; rewrite ?andb_false_r; simpl; split; intros ->; reflexivity.
Qed.

Lemma validateUrl_default_scheme_witness :
  validateUrl Sample.up (js "google.com") = Some (js "https://google.com")
  /\ validateUrl Sample.up (js "http://example.org") = Some (js "http://example.org")
  /\ validateUrl Sample.up (js "a b") = None.
Proof.
  split; [| split].
  - apply (proj1 (validateUrl_default_scheme Sample.up (js "google.com")));
      reflexivity.
  - apply (proj2 (validateUrl_default_scheme Sample.up (js "http://example.org")));
      [left |]; reflexivity.
  - apply (proj1 (validateUrl_default_scheme Sample.up (js "a b"))); reflexivity.
Defined.

(** C8. Normalisation is idempotent: when [validateUrl] succeeds on [s] and
    returns [u], it succeeds on [u] and returns [u]. *)
Theorem validateUrl_idempotent (P : Platform) (s u : jsstring) :
  validateUrl P s = Some u -> validateUrl P u = Some u.
Proof.
  intros H. destruct (validateUrl_Some _ _ H) as [Hurl Hscheme].
  rewrite validateUrl_unfold. cbv zeta.
  destruct Hscheme as [-> | ->]; rewrite ?andb_false_r; simpl; now rewrite Hurl.
Qed.

Lemma validateUrl_idempotent_witness :
  validateUrl Sample.up (js "google.com") = Some (js "https://google.com")
  /\ validateUrl Sample.up (js "https://google.com") = Some (js "https://google.com").
Proof.
  split; [reflexivity |].
  apply (validateUrl_idempotent Sample.up (js "google.com")). reflexivity.
Defined.

(** ** Properties of the orchestrator *)

(** C6. When the trimmed input is empty, or is not a well-formed URL even
    with the default scheme, [checkWebsite] returns after one call of
    [setError] with the message of that case and nothing else, so without a
    [fetch]; and whenever a call did reach [fetch], the trimmed input was
    not empty and was normalised into a string the URL constructor
    accepts. *)
Theorem checkWebsite_rejects_without_request
    (P : Platform) (R : Revision) (urlOverride : option jsstring) (st : State) :
  (string_truthy (trimmedTarget urlOverride st) = false ->
   run P R urlOverride st =
     (Normal tt, {| component := rejectedState st emptyInputMessage;
                    effects := [SetError emptyInputMessage] |})
   /\ existsb isFetch (effectsOf P R urlOverride st) = false)
  /\ (validateUrl P (trimmedTarget urlOverride st) = None ->
      exists msg,
        (msg = emptyInputMessage \/ msg = invalidUrlMessage R)
        /\ run P R urlOverride st =
             (Normal tt, {| component := rejectedState st msg;
                            effects := [SetError msg] |})
        /\ existsb isFetch (effectsOf P R urlOverride st) = false)
  /\ (existsb isFetch (effectsOf P R urlOverride st) = true ->
      exists u,
        string_truthy (trimmedTarget urlOverride st) = true
        /\ validateUrl P (trimmedTarget urlOverride st) = Some u
        /\ URL_constructs P u = true).
Proof.
  unfold effectsOf.
  destruct (run_cases P R urlOverride st)
    as [[H Hrun] | [[H [Hv Hrun]] | [u [H [Hv Hrun]]]]]; rewrite Hrun;
    (split; [| split]).
  - intros _. split; reflexivity.
  - intros _. exists emptyInputMessage. auto.
  - discriminate.
  - rewrite H. discriminate.
  - intros _. exists (invalidUrlMessage R). auto.
  - discriminate.
  - rewrite H. discriminate.
  - rewrite Hv. discriminate.
  - intros _. exists u. destruct (validateUrl_Some _ _ Hv). auto.
Qed.

Lemma checkWebsite_rejects_without_request_witness :
  (run Sample.up App_jsx None initialState =
     (Normal tt, {| component := rejectedState initialState emptyInputMessage;
                    effects := [SetError emptyInputMessage] |})
   /\ existsb isFetch (effectsOf Sample.up App_jsx None initialState) = false)
  /\ (exists msg,
        (msg = emptyInputMessage \/ msg = invalidUrlMessage quick_links)
        /\ run Sample.up quick_links (Some (js "a b")) initialState =
             (Normal tt, {| component := rejectedState initialState msg;
                            effects := [SetError msg] |})
        /\ existsb isFetch (effectsOf Sample.up quick_links (Some (js "a b")) initialState)
           = false)
  /\ (exists u,
        string_truthy (trimmedTarget None Sample.typed) = true
        /\ validateUrl Sample.up (trimmedTarget None Sample.typed) = Some u
        /\ URL_constructs Sample.up u = true).
Proof.
  split; [| split].
  - apply (checkWebsite_rejects_without_request Sample.up App_jsx None initialState).
    reflexivity.
  - apply (checkWebsite_rejects_without_request Sample.up quick_links
             (Some (js "a b")) initialState).
    reflexivity.
  - apply (checkWebsite_rejects_without_request Sample.up App_jsx None Sample.typed).
    reflexivity.
Defined.

(** C9. When [checkWebsite] rejects the input (the trimmed input is empty,
    or it is not a well-formed URL after normalisation), the [url] field,
    the current status record, the loading flag and the history are what
    they were before the call: only the error message changed, so a record
    displayed before stays displayed. *)
Theorem checkWebsite_rejection_frame
    (P : Platform) (R : Revision) (urlOverride : option jsstring) (st : State) :
  string_truthy (trimmedTarget urlOverride st) = false
  \/ validateUrl P (trimmedTarget urlOverride st) = None ->
  url (stateAfter P R urlOverride st) = url st
  /\ status (stateAfter P R urlOverride st) = status st
  /\ loading (stateAfter P R urlOverride st) = loading st
  /\ history (stateAfter P R urlOverride st) = history st
  /\ (error (stateAfter P R urlOverride st) = emptyInputMessage
      \/ error (stateAfter P R urlOverride st) = invalidUrlMessage R).
Proof.
  intros Hrejected. unfold stateAfter.
  destruct (run_cases P R urlOverride st)
    as [[H Hrun] | [[H [Hv Hrun]] | [u [H [Hv Hrun]]]]].
  - rewrite Hrun. simpl. auto 6.
  - rewrite Hrun. simpl. auto 6.
  - destruct Hrejected as [H' | Hv']; congruence.
Qed.

Lemma checkWebsite_rejection_frame_witness :
  let shown := {| url := js "a b"; status := Some (recordOf Sample.up (js "https://google.com") Sample.upBody);
                  loading := false; error := [];
                  history := [historyEntry Sample.up
                                (recordOf Sample.up (js "https://google.com") Sample.upBody)] |} in
  status (stateAfter Sample.up App_jsx None shown) = status shown
  /\ history (stateAfter Sample.up App_jsx None shown) = history shown
  /\ error (stateAfter Sample.up App_jsx None shown) = invalidUrlMessage App_jsx.
Proof.
  intros shown.
  destruct (checkWebsite_rejection_frame Sample.up App_jsx None shown)
    as [_ [Hstatus [_ [Hhistory _]]]].
  - right. reflexivity.
  - split; [exact Hstatus | split; [exact Hhistory | reflexivity]].
Defined.

(** C4. A check that passes validation makes exactly one network call: a
    [fetch] of the backend endpoint of the revision with method POST, the
    single header [Content-Type: application/json], and as body the JSON
    text of [{ url: validatedUrl }]. *)
Theorem checkWebsite_single_post
    (P : Platform) (R : Revision) (urlOverride : option jsstring) (st : State)
    (validatedUrl : jsstring) :
  string_truthy (trimmedTarget urlOverride st) = true ->
  validateUrl P (trimmedTarget urlOverride st) = Some validatedUrl ->
  filter isFetch (effectsOf P R urlOverride st) =
    [Fetch (backendUrl R)
       {| method := js "POST";
          headers := [(js "Content-Type", js "application/json")];
          body := JSON_stringify P [(js "url", str validatedUrl)] |}].
Proof. intros H Hv. exact (fetches_accepted P R urlOverride st H Hv). Qed.

Lemma checkWebsite_single_post_witness :
  filter isFetch (effectsOf Sample.up App_jsx None Sample.typed) =
    [Fetch (js "https://nqs65ghim4dte2aghjwivmjkd40tlmmd.lambda-url.us-east-1.on.aws/")
       {| method := js "POST";
          headers := [(js "Content-Type", js "application/json")];
          body := JSON_stringify Sample.up [(js "url", str (js "https://google.com"))] |}].
Proof.
  apply (@checkWebsite_single_post Sample.up App_jsx None Sample.typed
           (js "https://google.com")); reflexivity.
Defined.

(** C7. A call of [checkWebsite] makes at most one [fetch] and reads at
    most one response body; when the exchange of an accepted check fails
    (the [try] block throws [e]), the call made exactly one [fetch], showed
    exactly one error message, the one for [e], and logged [e] once: there
    is no second attempt. *)
Theorem checkWebsite_single_exchange
    (P : Platform) (R : Revision) (urlOverride : option jsstring) (st : State) :
  List.length (filter isFetch (effectsOf P R urlOverride st)) <= 1
  /\ List.length (filter isJsonRead (effectsOf P R urlOverride st)) <= 1
  /\ (forall u e,
        string_truthy (trimmedTarget urlOverride st) = true ->
        validateUrl P (trimmedTarget urlOverride st) = Some u ->
        snd (attempt P R u) = inl e ->
        filter isFetch (effectsOf P R urlOverride st)
          = [Fetch (backendUrl R) (requestInit P u)]
        /\ filter isErrorReport (effectsOf P R urlOverride st)
           = [SetError (failureMessage e)]
        /\ filter isConsoleError (effectsOf P R urlOverride st)
           = [ConsoleError (js "Error:") e]).
Proof.
  split; [| split].
  - unfold effectsOf.
    destruct (run_cases P R urlOverride st)
      as [[H Hrun] | [[H [Hv Hrun]] | [u [H [Hv Hrun]]]]].
    + rewrite Hrun. simpl. lia.
    + rewrite Hrun. simpl. lia.
    + fold (effectsOf P R urlOverride st). rewrite (fetches_accepted P R urlOverride st H Hv).
      simpl. lia.
  - destruct (run_cases P R urlOverride st)
      as [[H Hrun] | [[H [Hv Hrun]] | [u [H [Hv Hrun]]]]];
      try (unfold effectsOf; rewrite Hrun; simpl; lia).
    rewrite (effectsOf_accepted P R urlOverride st H Hv).
    rewrite filter_accepted, !length_app.
    replace (filter isJsonRead (prelude P R urlOverride u)) with (@nil Effect)
      by (unfold prelude; destruct urlOverride as [o|];
          [destruct (string_truthy o)|]; reflexivity).
    replace (filter isJsonRead (epilogue P st (snd (attempt P R u)))) with (@nil Effect)
      by (destruct (snd (attempt P R u)); reflexivity).
    destruct (attempt_effects P R u) as [-> | ->]; simpl; lia.
  - intros u e H Hv Hfail. split; [exact (fetches_accepted P R urlOverride st H Hv) |].
    rewrite (effectsOf_accepted P R urlOverride st H Hv), Hfail, !filter_accepted.
    split.
    + replace (filter isErrorReport (prelude P R urlOverride u)) with (@nil Effect)
        by (unfold prelude; destruct urlOverride as [o|];
            [destruct (string_truthy o)|]; reflexivity).
      destruct (attempt_effects P R u) as [-> | ->]; reflexivity.
    + replace (filter isConsoleError (prelude P R urlOverride u)) with (@nil Effect)
        by (unfold prelude; destruct urlOverride as [o|];
            [destruct (string_truthy o)|]; reflexivity).
      destruct (attempt_effects P R u) as [-> | ->]; reflexivity.
Qed.

Lemma checkWebsite_single_exchange_witness :
  let e := mkError (js "Failed to fetch") in
  filter isFetch (effectsOf Sample.offline App_jsx None Sample.typed)
    = [Fetch (backendUrl App_jsx) (requestInit Sample.offline (js "https://google.com"))]
  /\ filter isErrorReport (effectsOf Sample.offline App_jsx None Sample.typed)
     = [SetError (failureMessage e)]
  /\ filter isConsoleError (effectsOf Sample.offline App_jsx None Sample.typed)
     = [ConsoleError (js "Error:") e].
Proof.
  intros e.
  apply (proj2 (proj2 (checkWebsite_single_exchange Sample.offline App_jsx None
                         Sample.typed))); reflexivity.
Defined.

(** ** Failed and successful exchanges *)

Section Exchanges.

Variable P : Platform.
Variable R : Revision.
Variable urlOverride : option jsstring.
Variable st : State.
Variable u : jsstring.

Hypothesis Hinput : string_truthy (trimmedTarget urlOverride st) = true.
Hypothesis Hvalid : validateUrl P (trimmedTarget urlOverride st) = Some u.

Lemma records_of_failure (e : JsError) :
  snd (attempt P R u) = inl e ->
  existsb isRecordSet (effectsOf P R urlOverride st) = false
  /\ existsb isHistoryUpdate (effectsOf P R urlOverride st) = false.
Proof.
  intros Hfail.
  rewrite (effectsOf_accepted P R urlOverride st Hinput Hvalid), Hfail.
  rewrite !existsb_app. unfold prelude.
  destruct urlOverride as [o|]; [destruct (string_truthy o)|];
    destruct (attempt_effects P R u) as [-> | ->]; split; reflexivity.
Qed.

Lemma stateAfter_failure (e : JsError) :
  snd (attempt P R u) = inl e ->
  stateAfter P R urlOverride st = failedState urlOverride st e.
Proof.
  intros Hfail. now rewrite (stateAfter_accepted P R urlOverride st Hinput Hvalid), Hfail.
Qed.

Lemma stateAfter_success (result : JsObject) :
  snd (attempt P R u) = inr result ->
  stateAfter P R urlOverride st = succeededState P urlOverride st result.
Proof.
  intros Hok. now rewrite (stateAfter_accepted P R urlOverride st Hinput Hvalid), Hok.
Qed.

End Exchanges.

Lemma attempt_fetch_rejects (P : Platform) (R : Revision) (u : jsstring) (e : JsError) :
  fetch P (backendUrl R) (requestInit P u) = FetchRejects e ->
  snd (attempt P R u) = inl e.
Proof. intros H. unfold attempt. now rewrite H. Qed.

Lemma attempt_not_ok (P : Platform) (R : Revision) (u : jsstring)
    (response : Response.t) :
  fetch P (backendUrl R) (requestInit P u) = FetchResolves response ->
  Response.ok response = false ->
  snd (attempt P R u) = inl (httpError (Response.status response)).
Proof. intros H Hok. unfold attempt. now rewrite H, Hok. Qed.

Lemma attempt_body (P : Platform) (R : Revision) (u : jsstring)
    (response : Response.t) (data : Json) :
  fetch P (backendUrl R) (requestInit P u) = FetchResolves response ->
  Response.ok response = true ->
  Response.json response = JsonResolves data ->
  snd (attempt P R u) =
    match data with
    | JNull => inl (mkError (nullReadMessage P (js "status")))
    | _ => inr (recordOf P u data)
    end.
Proof.
  intros H Hok Hjson. unfold attempt. rewrite H, Hok, Hjson. now destruct data.
Qed.

(** C3 as the specification states it fails: with the network down, the
    check of [google.com] passes validation and its [fetch] rejects, yet no
    display record is shown and the history stays empty. *)
Lemma failure_not_recorded :
  string_truthy (trimmedTarget None Sample.typed) = true
  /\ validateUrl Sample.offline (trimmedTarget None Sample.typed)
     = Some (js "https://google.com")
  /\ fetch Sample.offline (backendUrl App_jsx)
       (requestInit Sample.offline (js "https://google.com"))
     = FetchRejects (mkError (js "Failed to fetch"))
  /\ status (stateAfter Sample.offline App_jsx None Sample.typed) = None
  /\ history (stateAfter Sample.offline App_jsx None Sample.typed) = []
  /\ ~ (exists record,
          status (stateAfter Sample.offline App_jsx None Sample.typed) = Some record
          \/ In record (history (stateAfter Sample.offline App_jsx None Sample.typed))).
Proof.
  repeat (split; [reflexivity |]).
  intros [record [Hshown | Hkept]].
  - discriminate Hshown.
  - exact Hkept.
Qed.

(** C3, amended. When the exchange of a check that passed validation fails
    (the [fetch] rejects with [e], or the response is not ok, which counts
    as the error [HTTP error! status: <status>]), no display record is
    shown and the history is left as it was: the failure is reported as the
    error message [Failed to check website: <message>. Please try again.]
    and the loading flag is cleared. *)
Theorem checkWebsite_failure_reported
    (P : Platform) (R : Revision) (urlOverride : option jsstring) (st : State)
    (u : jsstring) (e : JsError) :
  string_truthy (trimmedTarget urlOverride st) = true ->
  validateUrl P (trimmedTarget urlOverride st) = Some u ->
  fetch P (backendUrl R) (requestInit P u) = FetchRejects e
  \/ (exists response,
        fetch P (backendUrl R) (requestInit P u) = FetchResolves response
        /\ Response.ok response = false
        /\ e = httpError (Response.status response)) ->
  status (stateAfter P R urlOverride st) = None
  /\ history (stateAfter P R urlOverride st) = history st
  /\ error (stateAfter P R urlOverride st)
     = js "Failed to check website: " ++ message e ++ js ". Please try again."
  /\ loading (stateAfter P R urlOverride st) = false
  /\ existsb isRecordSet (effectsOf P R urlOverride st) = false
  /\ existsb isHistoryUpdate (effectsOf P R urlOverride st) = false.
Proof.
  intros H Hv Hfails.
  assert (Hattempt : snd (attempt P R u) = inl e).
  { destruct Hfails as [Hf | [response [Hf [Hok ->]]]].
    - now apply attempt_fetch_rejects.
    - now apply attempt_not_ok. }
  rewrite (stateAfter_failure P R urlOverride st H Hv Hattempt).
  destruct (records_of_failure P R urlOverride st H Hv Hattempt) as [Hrec Hhist].
  repeat split; assumption.
Qed.

Lemma checkWebsite_failure_reported_witness :
  status (stateAfter Sample.serverError quick_links (Some (js "github.com")) initialState)
    = None
  /\ history (stateAfter Sample.serverError quick_links (Some (js "github.com")) initialState)
     = []
  /\ error (stateAfter Sample.serverError quick_links (Some (js "github.com")) initialState)
     = js "Failed to check website: HTTP error! status: 500. Please try again.".
Proof.
  destruct (@checkWebsite_failure_reported Sample.serverError quick_links
              (Some (js "github.com")) initialState (js "https://github.com")
              (httpError 500)) as [Hstatus [Hhistory [Herror _]]].
  - reflexivity.
  - reflexivity.
  - right. eexists. repeat split; reflexivity.
  - split; [exact Hstatus | split; [exact Hhistory |]].
    rewrite Herror. reflexivity.
Defined.

(** C5 as the specification states it fails: the response is ok and its
    body is the JSON text [null], yet no display record is set; reading
    [data.status] throws and the check ends with an error message. *)
Lemma null_body_not_mapped :
  string_truthy (trimmedTarget None Sample.typed) = true
  /\ validateUrl Sample.nullBody (trimmedTarget None Sample.typed)
     = Some (js "https://google.com")
  /\ fetch Sample.nullBody (backendUrl App_jsx)
       (requestInit Sample.nullBody (js "https://google.com"))
     = Sample.respond true 200 (JsonResolves JNull)
  /\ status (stateAfter Sample.nullBody App_jsx None Sample.typed) = None
  /\ error (stateAfter Sample.nullBody App_jsx None Sample.typed)
     = failureMessage (mkError (js "Cannot read properties of null (reading 'status')"))
  /\ ~ (exists record,
          status (stateAfter Sample.nullBody App_jsx None Sample.typed) = Some record).
Proof.
  repeat (split; [reflexivity |]).
  intros [record Hshown]. discriminate Hshown.
Qed.

(** C5, amended. When the exchange of a check succeeds with a body other
    than [null] (the response is ok and its body parses as JSON to a value
    that is not [null]), the status becomes a display record with exactly
    the fields [url], [status], [responseTime], [timestamp], [statusCode]
    and [message], in this order, whose [url] is the normalised URL that
    was submitted and whose [timestamp] is the time of the mapping. *)
Theorem checkWebsite_maps_response
    (P : Platform) (R : Revision) (urlOverride : option jsstring) (st : State)
    (u : jsstring) (response : Response.t) (data : Json) :
  string_truthy (trimmedTarget urlOverride st) = true ->
  validateUrl P (trimmedTarget urlOverride st) = Some u ->
  fetch P (backendUrl R) (requestInit P u) = FetchResolves response ->
  Response.ok response = true ->
  Response.json response = JsonResolves data ->
  data <> JNull ->
  exists record,
    status (stateAfter P R urlOverride st) = Some record
    /\ keys record = displayFields
    /\ lookup (js "url") record = Some (str u)
    /\ lookup (js "timestamp") record = Some (str (Date_toISOString P))
    /\ record = recordOf P u data.
Proof.
  intros H Hv Hf Hok Hjson Hdata.
  exists (recordOf P u data).
  rewrite (stateAfter_success P R urlOverride st H Hv (result := recordOf P u data)).
  - repeat split; reflexivity.
  - rewrite (attempt_body P R u Hf Hok Hjson). destruct data; congruence.
Qed.

Lemma checkWebsite_maps_response_witness :
  exists record,
    status (stateAfter Sample.up App_jsx None Sample.typed) = Some record
    /\ keys record = displayFields
    /\ lookup (js "url") record = Some (str (js "https://google.com"))
    /\ lookup (js "timestamp") record = Some (str (Date_toISOString Sample.up))
    /\ record = recordOf Sample.up (js "https://google.com") Sample.upBody.
Proof.
  apply (@checkWebsite_maps_response Sample.up App_jsx None Sample.typed
           (js "https://google.com")
           {| Response.ok := true; Response.status := 200;
              Response.json := JsonResolves Sample.upBody |} Sample.upBody);
    try reflexivity.
  discriminate.
Defined.



(** ** The bounded history *)

Lemma firstn_app_firstn {A : Type} (older : list A) (e : A) (newer : list A) (n k : nat) :
  k <= S n ->
  firstn k (newer ++ e :: firstn n older) = firstn k (newer ++ e :: older).
Proof.
  revert k. induction newer as [|a newer IH]; intros [|k] Hk; simpl; try reflexivity.
  - f_equal. rewrite firstn_firstn. f_equal. lia.
  - f_equal. apply IH. lia.
Qed.

#[local] Arguments firstn : simpl never.

(** A successful check passed validation and its [try] block built a
    record. *)
Lemma successful_inv (P : Platform) (R : Revision) (urlOverride : option jsstring)
    (st : State) :
  successful P R urlOverride st = true ->
  exists result, stateAfter P R urlOverride st = succeededState P urlOverride st result.
Proof.
  unfold successful. intros Hs.
  destruct (run_cases P R urlOverride st)
    as [[H Hrun] | [[H [Hv Hrun]] | [u [H [Hv Hrun]]]]].
  - unfold effectsOf in Hs. rewrite Hrun in Hs. discriminate Hs.
  - unfold effectsOf in Hs. rewrite Hrun in Hs. discriminate Hs.
  - destruct (snd (attempt P R u)) as [e|result] eqn:Hattempt.
    + destruct (records_of_failure P R urlOverride st H Hv Hattempt) as [Hnone _].
      congruence.
    + exists result. exact (stateAfter_success P R urlOverride st H Hv Hattempt).
Qed.

Lemma history_bounded_step (P : Platform) (R : Revision) (urlOverride : option jsstring)
    (st : State) :
  List.length (history st) <= 5 ->
  List.length (history (stateAfter P R urlOverride st)) <= 5.
Proof.
  intros Hlen. unfold stateAfter.
  destruct (run_cases P R urlOverride st)
    as [[H Hrun] | [[H [Hv Hrun]] | [u [H [Hv Hrun]]]]]; rewrite Hrun;
    cbn [snd component]; try exact Hlen.
  destruct (snd (attempt P R u)) as [e|result]; [exact Hlen |].
  unfold settledState, succeededState. cbn [history List.length].
  rewrite length_firstn. lia.
Qed.

Lemma session_history (R : Revision) (evs : list UserEvent) :
  forall st,
    List.length (history st) <= 5 ->
    allSuccessful R evs st ->
    history (session R evs st) = firstn 5 (produced R evs st ++ history st)
    /\ List.length (produced R evs st) = List.length (filter isCheck evs).
Proof.
  induction evs as [|ev evs IH]; intros st Hlen Hall.
  - simpl. split; [| reflexivity]. symmetry. now apply firstn_all2.
  - destruct Hall as [Hev Hrest].
    assert (Hlen' : List.length (history (handle R st ev)) <= 5).
    { destruct ev as [text | P o]; simpl; [exact Hlen |].
      now apply history_bounded_step. }
    destruct (IH _ Hlen' Hrest) as [IHhist IHlen].
    change (session R (ev :: evs) st) with (session R evs (handle R st ev)).
    rewrite IHhist.
    destruct ev as [text | P o]; simpl.
    + rewrite app_nil_r. split; [reflexivity | exact IHlen].
    + rewrite Hev.
      destruct (successful_inv P R o st Hev) as [result Hafter].
      simpl in IHlen. rewrite Hafter in *. simpl.
      rewrite <- app_assoc. simpl.
      split; [apply firstn_app_firstn; lia |].
      rewrite length_app, IHlen. simpl. lia.
Qed.

(** ** More on strings *)

Lemma jsstring_eqb_eq (a b : jsstring) : jsstring_eqb a b = true <-> a = b.
Proof.
  revert b. induction a as [|x a IH]; intros [|y b]; simpl;
    try (split; [discriminate | congruence]); try tauto.
  rewrite andb_true_iff, N.eqb_eq, IH. split.
  - intros [-> ->]. reflexivity.
  - intros [= -> ->]. auto.
Qed.

Lemma jsstring_eqb_refl (a : jsstring) : jsstring_eqb a a = true.
Proof. now apply jsstring_eqb_eq. Qed.

Lemma jsstring_eqb_neq (a b : jsstring) : a <> b -> jsstring_eqb a b = false.
Proof.
  intros H. destruct (jsstring_eqb a b) eqn:E; [| reflexivity].
  now apply jsstring_eqb_eq in E.
Qed.

Lemma trimStart_blank (s : jsstring) :
  trimStart s = [] <-> forallb isWhiteSpace s = true.
Proof.
  induction s as [|c s IH]; simpl; [tauto |].
  destruct (isWhiteSpace c); simpl; [exact IH |].
  split; discriminate.
Qed.

Lemma trimStart_pad (blank s : jsstring) :
  forallb isWhiteSpace blank = true -> trimStart (blank ++ s) = trimStart s.
Proof.
  induction blank as [|c blank IH]; simpl; [reflexivity |].
  destruct (isWhiteSpace c); simpl; [exact IH | discriminate].
Qed.

(** What [trimStart] leaves begins with a character that is not blank. *)
Lemma trimStart_head (s : jsstring) :
  trimStart s = []
  \/ exists c rest, trimStart s = c :: rest /\ isWhiteSpace c = false.
Proof.
  induction s as [|c s IH]; simpl; [now left |].
  destruct (isWhiteSpace c) eqn:E; [exact IH |].
  right. now exists c, s.
Qed.

Lemma trimStart_app_solid (s blank : jsstring) :
  trimStart s <> [] -> trimStart (s ++ blank) = trimStart s ++ blank.
Proof.
  induction s as [|c s IH]; simpl; [congruence |].
  destruct (isWhiteSpace c); [exact IH | reflexivity].
Qed.

Lemma forallb_rev {A : Type} (f : A -> bool) (l : list A) :
  forallb f (rev l) = forallb f l.
Proof.
  induction l as [|a l IH]; simpl; [reflexivity |].
  rewrite forallb_app, IH. simpl. rewrite andb_true_r. apply andb_comm.
Qed.

Lemma trimEnd_blank (s : jsstring) :
  trimEnd s = [] <-> forallb isWhiteSpace s = true.
Proof.
  unfold trimEnd. rewrite <- (forallb_rev isWhiteSpace s), <- trimStart_blank.
  split; intros H.
  - apply (f_equal (@rev N)) in H. now rewrite rev_involutive in H.
  - now rewrite H.
Qed.

Lemma trimEnd_pad (s blank : jsstring) :
  forallb isWhiteSpace blank = true -> trimEnd (s ++ blank) = trimEnd s.
Proof.
  intros H. unfold trimEnd. rewrite rev_app_distr, trimStart_pad; [reflexivity |].
  now rewrite forallb_rev.
Qed.

Lemma trim_empty_iff (s : jsstring) : trim s = [] <-> forallb isWhiteSpace s = true.
Proof.
  unfold trim. rewrite trimEnd_blank. split; intros H.
  - destruct (trimStart_head s) as [E | [c [rest [E Hc]]]].
    + now apply trimStart_blank.
    + rewrite E in H. simpl in H. now rewrite Hc in H.
  - apply trimStart_blank in H. now rewrite H.
Qed.

Lemma trim_pad (before s after : jsstring) :
  forallb isWhiteSpace before = true ->
  forallb isWhiteSpace after = true ->
  trim (before ++ s ++ after) = trim s.
Proof.
  intros Hb Ha. unfold trim. rewrite trimStart_pad by exact Hb.
  destruct (trimStart s) as [|c rest] eqn:E.
  - apply trimStart_blank in E.
    assert (Hall : forallb isWhiteSpace (s ++ after) = true)
      by now rewrite forallb_app, E, Ha.
    apply trimStart_blank in Hall. now rewrite Hall.
  - rewrite trimStart_app_solid by congruence. rewrite E. now apply trimEnd_pad.
Qed.

Lemma string_truthy_false (s : jsstring) : string_truthy s = false <-> s = [].
Proof. destruct s; simpl; split; congruence. Qed.

(** ** More on runs *)

Lemma run_normal (P : Platform) (R : Revision) (urlOverride : option jsstring)
    (st : State) :
  fst (run P R urlOverride st) = Normal tt.
Proof.
  destruct (run_cases P R urlOverride st)
    as [[H Hrun] | [[H [Hv Hrun]] | [u [H [Hv Hrun]]]]]; now rewrite Hrun.
Qed.

Lemma attempt_json_rejects (P : Platform) (R : Revision) (u : jsstring)
    (response : Response.t) (e : JsError) :
  fetch P (backendUrl R) (requestInit P u) = FetchResolves response ->
  Response.ok response = true ->
  Response.json response = JsonRejects e ->
  attempt P R u = ([ResponseJson], inl e).
Proof. intros H Hok Hjson. unfold attempt. now rewrite H, Hok, Hjson. Qed.

Lemma attempt_json_null (P : Platform) (R : Revision) (u : jsstring)
    (response : Response.t) :
  fetch P (backendUrl R) (requestInit P u) = FetchResolves response ->
  Response.ok response = true ->
  Response.json response = JsonResolves JNull ->
  attempt P R u = ([ResponseJson], inl (mkError (nullReadMessage P (js "status")))).
Proof. intros H Hok Hjson. unfold attempt. now rewrite H, Hok, Hjson. Qed.

(** The record of a [try] block that ends well is the one of its body. *)
Lemma attempt_record (P : Platform) (R : Revision) (u : jsstring) (result : JsObject) :
  snd (attempt P R u) = inr result ->
  exists response data,
    fetch P (backendUrl R) (requestInit P u) = FetchResolves response
    /\ Response.ok response = true
    /\ Response.json response = JsonResolves data
    /\ data <> JNull
    /\ result = recordOf P u data
    /\ fst (attempt P R u) = [ResponseJson].
Proof.
  unfold attempt.
  destruct (fetch P (backendUrl R) (requestInit P u)) as [e|response] eqn:Hf;
    [discriminate |].
  destruct (Response.ok response) eqn:Hok; [| discriminate].
  destruct (Response.json response) as [e|data] eqn:Hjson; [discriminate |].
  destruct data; try discriminate; intros [= <-];
    exists response; eexists; repeat split; try eassumption; discriminate.
Qed.

Lemma records_of_prelude (P : Platform) (R : Revision) (urlOverride : option jsstring)
    (u : jsstring) (record : JsObject) :
  ~ In (SetStatus (Some record)) (prelude P R urlOverride u).
Proof.
  unfold prelude. intros Hin. apply in_app_or in Hin. destruct Hin as [Hin | Hin].
  - destruct urlOverride as [o|]; [destruct (string_truthy o)|]; simpl in Hin;
      intuition discriminate.
  - simpl in Hin. intuition discriminate.
Qed.

(** A display record is set only by an accepted check whose response was ok
    with a body other than [null], and it is the record of that body. *)
Lemma record_set_inv (P : Platform) (R : Revision) (urlOverride : option jsstring)
    (st : State) (record : JsObject) :
  In (SetStatus (Some record)) (effectsOf P R urlOverride st) ->
  exists u data,
    string_truthy (trimmedTarget urlOverride st) = true
    /\ validateUrl P (trimmedTarget urlOverride st) = Some u
    /\ snd (attempt P R u) = inr record
    /\ data <> JNull
    /\ record = recordOf P u data.
Proof.
  intros Hin. unfold effectsOf in Hin.
  destruct (run_cases P R urlOverride st)
    as [[H Hrun] | [[H [Hv Hrun]] | [u [H [Hv Hrun]]]]]; rewrite Hrun in Hin;
    cbn [snd effects] in Hin.
  - simpl in Hin. intuition discriminate.
  - simpl in Hin. intuition discriminate.
  - apply in_app_or in Hin. destruct Hin as [Hin | Hin];
      [now apply records_of_prelude in Hin |].
    apply in_app_or in Hin. destruct Hin as [Hin | Hin].
    + destruct (attempt_effects P R u) as [E | E]; rewrite E in Hin; simpl in Hin;
        intuition discriminate.
    + destruct (snd (attempt P R u)) as [e|result] eqn:Hattempt.
      * simpl in Hin. intuition discriminate.
      * assert (result = record) as ->
          by (simpl in Hin; intuition (try discriminate); congruence).
        destruct (attempt_record P R u Hattempt)
          as [response [data [_ [_ [_ [Hdata [Hrec _]]]]]]].
        exists u, data. auto.
Qed.

Lemma successful_iff (P : Platform) (R : Revision) (urlOverride : option jsstring)
    (st : State) :
  successful P R urlOverride st = true <->
  exists record, In (SetStatus (Some record)) (effectsOf P R urlOverride st).
Proof.
  unfold successful. rewrite existsb_exists. split.
  - intros [e [Hin He]]. destruct e as [| [record|] | | | | | |]; try discriminate.
    now exists record.
  - intros [record Hin]. now exists (SetStatus (Some record)).
Qed.

Lemma successful_of_record (P : Platform) (R : Revision) (urlOverride : option jsstring)
    (st : State) (u : jsstring) (result : JsObject) :
  string_truthy (trimmedTarget urlOverride st) = true ->
  validateUrl P (trimmedTarget urlOverride st) = Some u ->
  snd (attempt P R u) = inr result ->
  successful P R urlOverride st = true.
Proof.
  intros H Hv Hattempt. apply successful_iff. exists result.
  rewrite (effectsOf_accepted P R urlOverride st H Hv), Hattempt.
  apply in_or_app. right. apply in_or_app. right. simpl. auto.
Qed.

(** A check that is not successful leaves the history as it was. *)
Lemma unsuccessful_history (P : Platform) (R : Revision) (urlOverride : option jsstring)
    (st : State) :
  successful P R urlOverride st = false ->
  history (stateAfter P R urlOverride st) = history st.
Proof.
  intros Hs.
  destruct (run_cases P R urlOverride st)
    as [[H Hrun] | [[H [Hv Hrun]] | [u [H [Hv Hrun]]]]].
  - unfold stateAfter. now rewrite Hrun.
  - unfold stateAfter. now rewrite Hrun.
  - destruct (snd (attempt P R u)) as [e|result] eqn:Hattempt.
    + now rewrite (stateAfter_failure P R urlOverride st H Hv Hattempt).
    + rewrite (successful_of_record P R urlOverride st H Hv Hattempt) in Hs.
      discriminate Hs.
Qed.

(** ** Further properties of [checkWebsite] *)

(** X1. An input made of blanks only (or empty) is the one case of the
    message [Please enter a website URL]: the call is that one [setError].
    Any other input goes on to [validateUrl]: rejected there it gets the
    invalid-URL message, accepted there it reaches [fetch]. *)
Theorem blank_input_rejected
    (P : Platform) (R : Revision) (urlOverride : option jsstring) (st : State) :
  (forallb isWhiteSpace (override_or urlOverride (url st)) = true ->
   run P R urlOverride st =
     (Normal tt, {| component := rejectedState st emptyInputMessage;
                    effects := [SetError emptyInputMessage] |}))
  /\ (forallb isWhiteSpace (override_or urlOverride (url st)) = false ->
      (validateUrl P (trimmedTarget urlOverride st) = None ->
       run P R urlOverride st =
         (Normal tt, {| component := rejectedState st (invalidUrlMessage R);
                        effects := [SetError (invalidUrlMessage R)] |}))
      /\ (forall u,
            validateUrl P (trimmedTarget urlOverride st) = Some u ->
            filter isFetch (effectsOf P R urlOverride st)
            = [Fetch (backendUrl R) (requestInit P u)])).
Proof.
  split.
  - intros Hblank. apply run_rejected_empty. apply string_truthy_false.
    now apply trim_empty_iff.
  - intros Hsolid.
    assert (H : string_truthy (trimmedTarget urlOverride st) = true).
    { destruct (string_truthy (trimmedTarget urlOverride st)) eqn:E; [reflexivity |].
      apply string_truthy_false, trim_empty_iff in E. congruence. }
    split.
    + intros Hv. now apply run_rejected_invalid.
    + intros u Hv. now apply fetches_accepted.
Qed.

Lemma blank_input_rejected_witness :
  effectsOf Sample.up quick_links None (withUrl initialState (js "   "))
    = [SetError emptyInputMessage]
  /\ effectsOf Sample.up quick_links None (withUrl initialState (js " a b "))
     = [SetError (js "Please enter a valid URL")].
Proof.
  split.
  - unfold effectsOf.
    rewrite (proj1 (blank_input_rejected Sample.up quick_links None
                      (withUrl initialState (js "   "))) eq_refl).
    reflexivity.
  - unfold effectsOf.
    rewrite (proj1 (proj2 (blank_input_rejected Sample.up quick_links None
                             (withUrl initialState (js " a b "))) eq_refl) eq_refl).
    reflexivity.
Defined.

(** X2. [checkWebsite] never throws: every exception of the exchange is
    caught. A call that reaches [fetch] sets the loading flag before it and
    clears it as its last step, on success and on failure alike; a call
    that does not reach [fetch] leaves the flag alone and logs nothing to
    the console. *)
Theorem checkWebsite_always_settles
    (P : Platform) (R : Revision) (urlOverride : option jsstring) (st : State) :
  fst (run P R urlOverride st) = Normal tt
  /\ (existsb isFetch (effectsOf P R urlOverride st) = false ->
      loading (stateAfter P R urlOverride st) = loading st
      /\ filter isConsoleError (effectsOf P R urlOverride st) = [])
  /\ (existsb isFetch (effectsOf P R urlOverride st) = true ->
      loading (stateAfter P R urlOverride st) = false
      /\ exists before input init after,
           effectsOf P R urlOverride st
           = before ++ [SetLoading true; SetError []; SetStatus None; Fetch input init]
             ++ after ++ [SetLoading false]
           /\ filter isFetch before = []
           /\ filter isFetch after = []).
Proof.
  split; [apply run_normal |].
  destruct (run_cases P R urlOverride st)
    as [[H Hrun] | [[H [Hv Hrun]] | [u [H [Hv Hrun]]]]].
  - unfold effectsOf, stateAfter. rewrite Hrun. split; [auto | discriminate].
  - unfold effectsOf, stateAfter. rewrite Hrun. split; [auto | discriminate].
  - split.
    + intros Hnone.
      assert (Hone := fetches_accepted P R urlOverride st H Hv).
      destruct (effectsOf P R urlOverride st) as [|e l] eqn:E; [discriminate Hone |].
      rewrite <- E in *. clear E.
      assert (Hin : In (Fetch (backendUrl R) (requestInit P u))
                       (filter isFetch (effectsOf P R urlOverride st)))
        by (rewrite Hone; now left).
      apply filter_In in Hin. destruct Hin as [Hin _].
      assert (Hex : existsb isFetch (effectsOf P R urlOverride st) = true)
        by (apply existsb_exists; eexists; split; [exact Hin | reflexivity]).
      congruence.
    + intros _. split.
      * rewrite (stateAfter_accepted P R urlOverride st H Hv).
        now destruct (snd (attempt P R u)).
      * rewrite (effectsOf_accepted P R urlOverride st H Hv).
        exists (match urlOverride with
                | Some o => if string_truthy o then [SetUrl o] else []
                | None => []
                end), (backendUrl R), (requestInit P u),
               (fst (attempt P R u)
                ++ match snd (attempt P R u) with
                   | inl e => [SetError (failureMessage e); ConsoleError (js "Error:") e]
                   | inr result =>
                       [SetStatus (Some result);
                        SetHistory (historyEntry P result :: firstn 4 (history st))]
                   end).
        split; [| split].
        -- unfold prelude, epilogue. now rewrite <- !app_assoc.
        -- destruct urlOverride as [o|]; [destruct (string_truthy o)|]; reflexivity.
        -- rewrite filter_app, fetches_of_attempt.
           now destruct (snd (attempt P R u)).
Qed.

Lemma checkWebsite_always_settles_witness :
  loading (stateAfter Sample.offline App_jsx None Sample.typed) = false
  /\ exists before input init after,
       effectsOf Sample.offline App_jsx None Sample.typed
       = before ++ [SetLoading true; SetError []; SetStatus None; Fetch input init]
         ++ after ++ [SetLoading false]
       /\ filter isFetch before = []
       /\ filter isFetch after = [].
Proof.
  apply (checkWebsite_always_settles Sample.offline App_jsx None Sample.typed).
  reflexivity.
Defined.

(** X3. When the response is ok but its body cannot be used (the promise of
    [response.json()] rejects with [e], or the body is [null] and reading
    [data.status] throws the engine's TypeError [e]), the check ends as a
    failure: the body was read once, no record is shown, the history is
    unchanged, and the message for [e] is shown and logged. *)
Theorem checkWebsite_unusable_body
    (P : Platform) (R : Revision) (urlOverride : option jsstring) (st : State)
    (u : jsstring) (response : Response.t) (e : JsError) :
  string_truthy (trimmedTarget urlOverride st) = true ->
  validateUrl P (trimmedTarget urlOverride st) = Some u ->
  fetch P (backendUrl R) (requestInit P u) = FetchResolves response ->
  Response.ok response = true ->
  Response.json response = JsonRejects e
  \/ (Response.json response = JsonResolves JNull
      /\ e = mkError (nullReadMessage P (js "status"))) ->
  status (stateAfter P R urlOverride st) = None
  /\ history (stateAfter P R urlOverride st) = history st
  /\ error (stateAfter P R urlOverride st) = failureMessage e
  /\ loading (stateAfter P R urlOverride st) = false
  /\ filter isJsonRead (effectsOf P R urlOverride st) = [ResponseJson]
  /\ filter isConsoleError (effectsOf P R urlOverride st)
     = [ConsoleError (js "Error:") e].
Proof.
  intros H Hv Hf Hok Hbody.
  assert (Hattempt : attempt P R u = ([ResponseJson], inl e)).
  { destruct Hbody as [Hjson | [Hjson ->]].
    - now apply (attempt_json_rejects P R u Hf Hok).
    - now apply (attempt_json_null P R u Hf Hok). }
  rewrite (stateAfter_accepted P R urlOverride st H Hv).
  rewrite (effectsOf_accepted P R urlOverride st H Hv), Hattempt.
  cbn [fst snd settledState failedState status history error loading].
  repeat (split; [reflexivity |]).
  unfold prelude.
  split; destruct urlOverride as [o|]; [destruct (string_truthy o)| |
                                        destruct (string_truthy o)|]; reflexivity.
Qed.

Lemma checkWebsite_unusable_body_witness :
  status (stateAfter Sample.nullBody App_jsx None Sample.typed) = None
  /\ error (stateAfter Sample.nullBody App_jsx None Sample.typed)
     = failureMessage (mkError (js "Cannot read properties of null (reading 'status')")).
Proof.
  destruct (@checkWebsite_unusable_body Sample.nullBody App_jsx None Sample.typed
              (js "https://google.com")
              {| Response.ok := true; Response.status := 200;
                 Response.json := JsonResolves JNull |}
              (mkError (js "Cannot read properties of null (reading 'status')")))
    as [Hstatus [_ [Herror _]]]; try reflexivity.
  - right. split; reflexivity.
  - split; assumption.
Defined.



(** ** Sessions with failures *)

Lemma session_history_any (R : Revision) (evs : list UserEvent) :
  forall st,
    List.length (history st) <= 5 ->
    history (session R evs st) = firstn 5 (produced R evs st ++ history st)
    /\ List.length (produced R evs st) = successes R evs st.
Proof.
  induction evs as [|ev evs IH]; intros st Hlen.
  - split; [| reflexivity]. symmetry. now apply firstn_all2.
  - assert (Hlen' : List.length (history (handle R st ev)) <= 5).
    { destruct ev as [text | P o]; simpl; [exact Hlen |].
      now apply history_bounded_step. }
    destruct (IH _ Hlen') as [IHhist IHlen].
    change (session R (ev :: evs) st) with (session R evs (handle R st ev)).
    rewrite IHhist.
    destruct ev as [text | P o]; cbn [produced successes].
    + rewrite app_nil_r. split; [reflexivity | exact IHlen].
    + destruct (successful P R o st) eqn:Hs.
      * destruct (successful_inv P R o st Hs) as [result Hafter].
        cbn [handle] in *. rewrite Hafter in *.
        cbn [succeededState status history].
        rewrite <- app_assoc. cbn [app].
        split; [apply firstn_app_firstn; lia |].
        rewrite length_app, IHlen. simpl. lia.
      * cbn [handle] in *. rewrite (unsuccessful_history P R o st Hs).
        rewrite app_nil_r. split; [reflexivity | exact IHlen].
Qed.

(** A successful check shows the record of its response body and puts the
    fields of that record, then [id], at the head of the history. *)
Lemma successful_record (P : Platform) (R : Revision) (urlOverride : option jsstring)
    (st : State) :
  successful P R urlOverride st = true ->
  exists u data,
    status (stateAfter P R urlOverride st) = Some (recordOf P u data)
    /\ history (stateAfter P R urlOverride st)
       = withId (recordOf P u data, Date_now P) :: firstn 4 (history st).
Proof.
  intros Hs.
  destruct (proj1 (successful_iff P R urlOverride st) Hs) as [record Hin].
  destruct (record_set_inv P R urlOverride st record Hin)
    as [u [data [H [Hv [Hattempt [_ ->]]]]]].
  exists u, data.
  rewrite (stateAfter_success P R urlOverride st H Hv Hattempt).
  split; reflexivity.
Qed.

Lemma produced_shown (R : Revision) (evs : list UserEvent) :
  forall st,
    produced R evs st = map withId (shown R evs st)
    /\ Forall (fun rc => keys (fst rc) = displayFields) (shown R evs st).
Proof.
  induction evs as [|ev evs IH]; intros st; [split; [reflexivity | constructor] |].
  destruct (IH (handle R st ev)) as [IHprod IHkeys].
  cbn [produced shown]. rewrite map_app, IHprod.
  destruct ev as [text | P o].
  - split; [reflexivity |]. apply Forall_app. split; [exact IHkeys | constructor].
  - destruct (successful P R o st) eqn:Hs.
    + destruct (successful_record P R o st Hs) as [u [data [Hstatus _]]].
      cbn [handle]. rewrite Hstatus.
      split; [reflexivity |].
      apply Forall_app. split; [exact IHkeys |].
      constructor; [reflexivity | constructor].
    + split; [reflexivity |]. apply Forall_app. split; [exact IHkeys | constructor].
Qed.

(** C2. In a session that starts with an empty history and in which every
    check is successful, the history after the session holds the newest
    five of the display records the checks set, newest first, each with
    its six fields followed by the [id] of its check: it has
    [min 5 (number of checks)] entries, so never more than five; and each
    successful check puts the record it displays (with its [id]) before
    the first four entries of the history it found. *)
Theorem history_keeps_last_five (R : Revision) (evs : list UserEvent) (st : State) :
  history st = [] ->
  allSuccessful R evs st ->
  history (session R evs st) = firstn 5 (map withId (shown R evs st))
  /\ List.length (shown R evs st) = List.length (filter isCheck evs)
  /\ Forall (fun rc => keys (fst rc) = displayFields) (shown R evs st)
  /\ List.length (history (session R evs st))
     = Nat.min 5 (List.length (filter isCheck evs))
  /\ List.length (history (session R evs st)) <= 5
  /\ (forall P urlOverride s,
        successful P R urlOverride s = true ->
        exists record,
          status (stateAfter P R urlOverride s) = Some record
          /\ keys record = displayFields
          /\ history (stateAfter P R urlOverride s)
             = (record ++ [(js "id", num (Date_now P))]) :: firstn 4 (history s)).
Proof.
  intros Hempty Hall.
  destruct (session_history R evs st) as [Hhist Hlen];
    [rewrite Hempty; simpl; lia | exact Hall |].
  destruct (produced_shown R evs st) as [Hprod Hkeys].
  rewrite Hempty, app_nil_r, Hprod in Hhist.
  rewrite Hprod, length_map in Hlen.
  split; [exact Hhist | split; [exact Hlen | split; [exact Hkeys |]]].
  rewrite Hhist, length_firstn, length_map, Hlen.
  split; [reflexivity | split; [lia |]].
  intros P o s Hs. destruct (successful_record P R o s Hs) as [u [data [Hstatus Hhistory]]].
  exists (recordOf P u data). split; [exact Hstatus | split; [reflexivity | exact Hhistory]].
Qed.

Lemma history_keeps_last_five_witness :
  let evs := [ Checked Sample.up (Some (js "a.com")); Checked Sample.up (Some (js "b.com"));
               Checked Sample.up (Some (js "c.com")); Checked Sample.up (Some (js "d.com"));
               Checked Sample.up (Some (js "e.com")); Checked Sample.up (Some (js "f.com")) ] in
  map (fun entry => prop entry (js "url")) (history (session quick_links evs initialState))
  = [ str (js "https://f.com"); str (js "https://e.com"); str (js "https://d.com");
      str (js "https://c.com"); str (js "https://b.com") ]
  /\ map keys (history (session quick_links evs initialState))
     = repeat (displayFields ++ [js "id"]) 5.
Proof.
  intros evs.
  destruct (@history_keeps_last_five quick_links evs initialState)
    as [Hhist _].
  - reflexivity.
  - vm_compute. repeat split.
  - rewrite Hhist. split; reflexivity.
Defined.

(** X5. In any session (typing, successful, failed and rejected checks in
    any order) the history is the newest five of: the display records of
    the successful checks, each with its [id], newest first, then what the
    history held at the start. A check that is not successful leaves the
    history as it was; the history never has more than five entries, and
    from an empty history it has [min 5 n] entries after [n] successful
    checks. *)
Theorem session_history_newest_five (R : Revision) (evs : list UserEvent) (st : State) :
  List.length (history st) <= 5 ->
  history (session R evs st) = firstn 5 (map withId (shown R evs st) ++ history st)
  /\ List.length (shown R evs st) = successes R evs st
  /\ Forall (fun rc => keys (fst rc) = displayFields) (shown R evs st)
  /\ List.length (history (session R evs st)) <= 5
  /\ (forall P urlOverride s,
        successful P R urlOverride s = false ->
        history (stateAfter P R urlOverride s) = history s)
  /\ (history st = [] ->
      List.length (history (session R evs st)) = Nat.min 5 (successes R evs st)).
Proof.
  intros Hlen. destruct (session_history_any R evs st Hlen) as [Hhist Hcount].
  destruct (produced_shown R evs st) as [Hprod Hkeys].
  rewrite Hprod in Hhist. rewrite Hprod, length_map in Hcount.
  split; [exact Hhist | split; [exact Hcount | split; [exact Hkeys |]]].
  split; [rewrite Hhist, length_firstn; lia |].
  split; [intros P o s Hs; now apply unsuccessful_history |].
  intros Hempty. rewrite Hempty, app_nil_r in Hhist.
  now rewrite Hhist, length_firstn, length_map, Hcount.
Qed.

Lemma session_history_newest_five_witness :
  let evs := [ Checked Sample.up None; Typed (js "google.com");
               Checked Sample.offline None; Checked Sample.up None;
               Checked Sample.nullBody (Some (js "github.com"));
               Checked Sample.up (Some (js "github.com"));
               Checked Sample.serverError (Some (js "amazon.com")) ] in
  map (fun entry => prop entry (js "url")) (history (session quick_links evs initialState))
  = [ str (js "https://github.com"); str (js "https://google.com") ]
  /\ successes quick_links evs initialState = 2.
Proof.
  intros evs.
  destruct (@session_history_newest_five quick_links evs initialState)
    as [Hhist _]; [simpl; lia |].
  rewrite Hhist. split; reflexivity.
Defined.

(** X6. The input field: a call without override never changes the [url]
    cell, and an empty override is no override; a call with a non-empty
    override puts the override, as given and untrimmed, into the cell when
    it reaches [fetch], and leaves the cell alone when the input is
    rejected. *)
Theorem checkWebsite_url_cell (P : Platform) (R : Revision) (st : State) :
  url (stateAfter P R None st) = url st
  /\ run P R (Some []) st = run P R None st
  /\ (forall o,
        string_truthy o = true ->
        url (stateAfter P R (Some o) st)
        = if existsb isFetch (effectsOf P R (Some o) st) then o else url st).
Proof.
  split; [| split].
  - unfold stateAfter.
    destruct (run_cases P R None st)
      as [[H Hrun] | [[H [Hv Hrun]] | [u [H [Hv Hrun]]]]]; rewrite Hrun;
      try reflexivity.
    cbn [snd component]. now destruct (snd (attempt P R u)).
  - reflexivity.
  - intros o Ho. unfold stateAfter, effectsOf.
    destruct (run_cases P R (Some o) st)
      as [[H Hrun] | [[H [Hv Hrun]] | [u [H [Hv Hrun]]]]]; rewrite Hrun;
      try reflexivity.
    cbn [snd component effects].
    unfold prelude. rewrite Ho. cbn [app existsb isFetch orb].
    destruct (snd (attempt P R u)); cbn [settledState failedState succeededState url];
      unfold override_or; now rewrite Ho.
Qed.

Lemma checkWebsite_url_cell_witness :
  url (stateAfter Sample.up quick_links (Some (js " github.com ")) Sample.typed)
    = js " github.com "
  /\ url (stateAfter Sample.up quick_links (Some (js "a b")) Sample.typed)
     = js "google.com".
Proof.
  split.
  - rewrite (proj2 (proj2 (checkWebsite_url_cell Sample.up quick_links Sample.typed))
               (js " github.com ") eq_refl).
    reflexivity.
  - rewrite (proj2 (proj2 (checkWebsite_url_cell Sample.up quick_links Sample.typed))
               (js "a b") eq_refl).
    reflexivity.
Defined.

(** X7. What [validateUrl] returns, when it returns a string: the input
    itself or [https://] followed by the input, starting with [http://] or
    [https://], accepted by the URL constructor, and never empty: so the
    [!validatedUrl] test of [checkWebsite] fires for [null] only. *)
Theorem validateUrl_result (P : Platform) (s u : jsstring) :
  validateUrl P s = Some u ->
  (u = s \/ u = js "https://" ++ s)
  /\ (u = s <-> startsWith s (js "http://") = true \/ startsWith s (js "https://") = true)
  /\ (startsWith u (js "http://") = true \/ startsWith u (js "https://") = true)
  /\ URL_constructs P u = true
  /\ string_truthy u = true.
Proof.
  intros H. pose proof (validateUrl_Some _ _ H) as [Hurl Hscheme].
  pose proof (validateUrl_truthy _ _ H) as Htruthy.
  rewrite validateUrl_unfold in H. cbv zeta in H.
  destruct (startsWith s (js "http://")) eqn:Hhttp;
    destruct (startsWith s (js "https://")) eqn:Hhttps; simpl in H;
    destruct (URL_constructs P _); try discriminate; injection H as <-;
    repeat split; auto; try (intros [Hs | Hs]; discriminate Hs).
  intros Heq. exfalso.
  apply (f_equal (@List.length N)) in Heq. simpl in Heq. lia.
Qed.

Lemma validateUrl_result_witness :
  startsWith (js "https://google.com") (js "https://") = true
  /\ string_truthy (js "https://google.com") = true.
Proof.
  destruct (@validateUrl_result Sample.up (js "google.com") (js "https://google.com")
              eq_refl) as [_ [_ [[Hscheme | Hscheme] [_ Htruthy]]]].
  - discriminate Hscheme.
  - split; assumption.
Defined.

(** X8. Blanks around the typed text do not matter: with blanks before and
    after the content of the input, a check makes the same calls and ends
    in the same state, the [url] cell (which keeps the text as typed)
    apart. *)
Theorem surrounding_blanks_ignored
    (P : Platform) (R : Revision) (st : State) (before after : jsstring) :
  forallb isWhiteSpace before = true ->
  forallb isWhiteSpace after = true ->
  effectsOf P R None (withUrl st (before ++ url st ++ after)) = effectsOf P R None st
  /\ stateAfter P R None (withUrl st (before ++ url st ++ after))
     = withUrl (stateAfter P R None st) (before ++ url st ++ after).
Proof.
  intros Hb Ha.
  set (padded := withUrl st (before ++ url st ++ after)).
  assert (Htrim : trimmedTarget None padded = trimmedTarget None st)
    by (unfold trimmedTarget, padded; simpl; now apply trim_pad).
  unfold effectsOf, stateAfter.
  destruct (run_cases P R None st)
    as [[H Hrun] | [[H [Hv Hrun]] | [u [H [Hv Hrun]]]]]; rewrite Hrun.
  - rewrite run_rejected_empty by now rewrite Htrim. split; reflexivity.
  - rewrite run_rejected_invalid by now rewrite Htrim. split; reflexivity.
  - rewrite (run_accepted P R None padded (u := u)) by now rewrite Htrim.
    cbn [snd component effects].
    split; [reflexivity |]. now destruct (snd (attempt P R u)).
Qed.

Lemma surrounding_blanks_ignored_witness :
  effectsOf Sample.up App_jsx None (withUrl Sample.typed (js "  google.com "))
  = effectsOf Sample.up App_jsx None Sample.typed.
Proof.
  apply (@surrounding_blanks_ignored Sample.up App_jsx Sample.typed (js "  ") (js " "));
    reflexivity.
Defined.

(** ** The display record *)

Lemma strictEqualsString_iff (v : JsValue) (literal : jsstring) :
  strictEqualsString v literal = true <-> v = str literal.
Proof.
  unfold strictEqualsString, str.
  destruct v as [| [| | | s | |]]; try (split; [discriminate | congruence]).
  rewrite jsstring_eqb_eq. split; congruence.
Qed.

Lemma getStatusColor_green (v : JsValue) :
  getStatusColor v = js "text-green-500" <-> v = str (js "UP").
Proof.
  rewrite <- strictEqualsString_iff. unfold getStatusColor.
  destruct (strictEqualsString v (js "UP")); split; auto; discriminate.
Qed.

Lemma getStatusBgColor_green (v : JsValue) :
  getStatusBgColor v = js "bg-green-50 border-green-200" <-> v = str (js "UP").
Proof.
  rewrite <- strictEqualsString_iff. unfold getStatusBgColor.
  destruct (strictEqualsString v (js "UP")); split; auto; discriminate.
Qed.

(** The record on display after an ok response with body [data]. *)
Lemma shown_record (P : Platform) (R : Revision) (urlOverride : option jsstring)
    (st : State) (u : jsstring) (response : Response.t) (data : Json)
    (record : JsObject) :
  string_truthy (trimmedTarget urlOverride st) = true ->
  validateUrl P (trimmedTarget urlOverride st) = Some u ->
  fetch P (backendUrl R) (requestInit P u) = FetchResolves response ->
  Response.ok response = true ->
  Response.json response = JsonResolves data ->
  status (stateAfter P R urlOverride st) = Some record ->
  record = recordOf P u data /\ data <> JNull.
Proof.
  intros H Hv Hf Hok Hjson Hshown.
  pose proof (attempt_body P R u Hf Hok Hjson) as Hattempt.
  destruct data;
    try (rewrite (stateAfter_success P R urlOverride st H Hv Hattempt) in Hshown;
         injection Hshown as <-; split; [reflexivity | discriminate]).
  rewrite (stateAfter_failure P R urlOverride st H Hv Hattempt) in Hshown.
  discriminate Hshown.
Qed.

Lemma truthy_status_default (v is_up : JsValue) :
  truthy (or_else v (if truthy is_up then str (js "UP") else str (js "DOWN"))) = true.
Proof.
  unfold or_else. destruct (truthy v) eqn:E; [exact E |].
  now destruct (truthy is_up).
Qed.

Lemma lookup_set_property_other (k k' : jsstring) (v : JsValue) (o : JsObject) :
  k' <> k -> lookup k' (set_property k v o) = lookup k' o.
Proof.
  intros Hk. induction o as [|[k0 v0] o IH]; simpl.
  - rewrite jsstring_eqb_neq by exact Hk. reflexivity.
  - destruct (jsstring_eqb k k0) eqn:E; simpl.
    + apply jsstring_eqb_eq in E. subst k0.
      rewrite jsstring_eqb_neq by exact Hk. reflexivity.
    + destruct (jsstring_eqb k' k0); [reflexivity | exact IH].
Qed.

Lemma lookup_set_property_same (k : jsstring) (v : JsValue) (o : JsObject) :
  lookup k (set_property k v o) = Some v.
Proof.
  induction o as [|[k0 v0] o IH]; simpl.
  - now rewrite jsstring_eqb_refl.
  - destruct (jsstring_eqb k k0) eqn:E; simpl; rewrite E; [reflexivity | exact IH].
Qed.

Lemma Forall_firstn_keep {A : Type} (Q : A -> Prop) (n : nat) (l : list A) :
  Forall Q l -> Forall Q (firstn n l).
Proof.
  intros H. revert n. induction H as [|a l Ha Hl IH]; intros [|n].
  - constructor.
  - constructor.
  - constructor.
  - rewrite firstn_cons. constructor; [exact Ha | apply IH].
Qed.

Lemma entryShape_historyEntry (P : Platform) (s u : jsstring) (data : Json) :
  validateUrl P s = Some u -> entryShape (historyEntry P (recordOf P u data)).
Proof.
  intros Hv. split; [reflexivity | split].
  - change (prop (historyEntry P (recordOf P u data)) (js "status"))
      with (or_else (field data (js "status"))
              (if truthy (field data (js "is_up")) then str (js "UP")
               else str (js "DOWN"))).
    apply truthy_status_default.
  - exists u. split; [reflexivity |]. now destruct (validateUrl_Some _ _ Hv).
Qed.

(** X9. Of the keys pressed in the input only Enter does anything: any
    other key leaves the component as it is and makes no call, and Enter is
    a check without override, which always makes at least one call. *)
Theorem handleKeyPress_only_enter
    (P : Platform) (R : Revision) (key : jsstring) (st : State) :
  (key <> js "Enter" ->
   handleKeyPress P R key {| component := st; effects := [] |}
   = (Normal tt, {| component := st; effects := [] |}))
  /\ (key = js "Enter" ->
      handleKeyPress P R key {| component := st; effects := [] |} = run P R None st
      /\ effectsOf P R None st <> []).
Proof.
  unfold handleKeyPress. split.
  - intros Hkey. now rewrite jsstring_eqb_neq.
  - intros ->. split; [reflexivity |].
    unfold effectsOf.
    destruct (run_cases P R None st)
      as [[H Hrun] | [[H [Hv Hrun]] | [u [H [Hv Hrun]]]]]; rewrite Hrun;
      discriminate.
Qed.

Lemma handleKeyPress_only_enter_witness :
  handleKeyPress Sample.up App_jsx (js "g") {| component := Sample.typed; effects := [] |}
    = (Normal tt, {| component := Sample.typed; effects := [] |})
  /\ effectsOf Sample.up App_jsx None Sample.typed <> [].
Proof.
  split.
  - apply (proj1 (handleKeyPress_only_enter Sample.up App_jsx (js "g") Sample.typed)).
    discriminate.
  - apply (proj2 (handleKeyPress_only_enter Sample.up App_jsx (js "Enter") Sample.typed)).
    reflexivity.
Defined.

(** X10. The colours of the result card: for the string ['UP']
    [getStatusColor] gives [text-green-500] and [getStatusBgColor] gives
    [bg-green-50 border-green-200]; for every other value they give
    [text-red-500] and [bg-red-50 border-red-200]. So the card of a check
    has the green classes when the body's [status] is ['UP'], or its
    [status] is falsy and its [is_up] truthy, and the red classes in every
    other case (a truthy [status] such as ['up'] included, whatever [is_up]
    says). *)
Theorem status_colour
    (P : Platform) (R : Revision) (urlOverride : option jsstring) (st : State)
    (u : jsstring) (response : Response.t) (data : Json) (record : JsObject) :
  (forall v,
     (v = str (js "UP") ->
      getStatusColor v = js "text-green-500"
      /\ getStatusBgColor v = js "bg-green-50 border-green-200")
     /\ (v <> str (js "UP") ->
         getStatusColor v = js "text-red-500"
         /\ getStatusBgColor v = js "bg-red-50 border-red-200"))
  /\ (string_truthy (trimmedTarget urlOverride st) = true ->
      validateUrl P (trimmedTarget urlOverride st) = Some u ->
      fetch P (backendUrl R) (requestInit P u) = FetchResolves response ->
      Response.ok response = true ->
      Response.json response = JsonResolves data ->
      status (stateAfter P R urlOverride st) = Some record ->
      (field data (js "status") = str (js "UP")
       \/ (truthy (field data (js "status")) = false
           /\ truthy (field data (js "is_up")) = true) ->
       getStatusColor (prop record (js "status")) = js "text-green-500"
       /\ getStatusBgColor (prop record (js "status"))
          = js "bg-green-50 border-green-200")
      /\ (~ (field data (js "status") = str (js "UP")
             \/ (truthy (field data (js "status")) = false
                 /\ truthy (field data (js "is_up")) = true)) ->
          getStatusColor (prop record (js "status")) = js "text-red-500"
          /\ getStatusBgColor (prop record (js "status"))
             = js "bg-red-50 border-red-200")).
Proof.
  assert (Hall : forall v,
            (v = str (js "UP") ->
             getStatusColor v = js "text-green-500"
             /\ getStatusBgColor v = js "bg-green-50 border-green-200")
            /\ (v <> str (js "UP") ->
                getStatusColor v = js "text-red-500"
                /\ getStatusBgColor v = js "bg-red-50 border-red-200")).
  { intros v. split.
    - intros ->. split; reflexivity.
    - intros Hv. unfold getStatusColor, getStatusBgColor.
      destruct (strictEqualsString v (js "UP")) eqn:E; [| split; reflexivity].
      apply strictEqualsString_iff in E. contradiction. }
  split; [exact Hall |].
  intros H Hv Hf Hok Hjson Hshown.
  destruct (shown_record P R urlOverride st H Hv Hf Hok Hjson Hshown) as [-> _].
  change (prop (recordOf P u data) (js "status"))
    with (or_else (field data (js "status"))
            (if truthy (field data (js "is_up")) then str (js "UP")
             else str (js "DOWN"))).
  assert (Hup : or_else (field data (js "status"))
                  (if truthy (field data (js "is_up")) then str (js "UP")
                   else str (js "DOWN")) = str (js "UP")
                <-> field data (js "status") = str (js "UP")
                    \/ (truthy (field data (js "status")) = false
                        /\ truthy (field data (js "is_up")) = true)).
  { unfold or_else.
    destruct (truthy (field data (js "status"))) eqn:Es.
    - split; [auto | intros [E | [E _]]; [exact E | discriminate E]].
    - destruct (truthy (field data (js "is_up"))) eqn:Eu.
      + split; [auto | intros _; reflexivity].
      + split; [discriminate |].
        intros [E | [_ E]]; [| discriminate E].
        rewrite E in Es. discriminate Es. }
  split.
  - intros Hcase. apply (proj1 (Hall _)). now apply Hup.
  - intros Hcase. apply (proj2 (Hall _)). intros E. apply Hcase. now apply Hup.
Qed.

Lemma status_colour_witness :
  let shownStatus := prop (recordOf Sample.up (js "https://google.com") Sample.upBody)
                       (js "status") in
  (getStatusColor shownStatus = js "text-green-500"
   /\ getStatusBgColor shownStatus = js "bg-green-50 border-green-200")
  /\ (getStatusColor (str (js "up")) = js "text-red-500"
      /\ getStatusBgColor (str (js "up")) = js "bg-red-50 border-red-200").
Proof.
  intros shownStatus.
  destruct (@status_colour Sample.up App_jsx None Sample.typed
              (js "https://google.com")
              {| Response.ok := true; Response.status := 200;
                 Response.json := JsonResolves Sample.upBody |} Sample.upBody
              (recordOf Sample.up (js "https://google.com") Sample.upBody))
    as [Hall Hcard].
  split.
  - apply (proj1 (Hcard eq_refl eq_refl eq_refl eq_refl eq_refl eq_refl)).
    right. split; reflexivity.
  - apply (proj2 (Hall (str (js "up")))). discriminate.
Defined.

(** X11. An ok response whose body is JSON but not an object (a boolean, a
    number, a string or an array) is displayed as a site that is down:
    status ['DOWN'], response time [0], no status code, empty message. *)
Theorem non_object_body_is_down
    (P : Platform) (R : Revision) (urlOverride : option jsstring) (st : State)
    (u : jsstring) (response : Response.t) (data : Json) :
  string_truthy (trimmedTarget urlOverride st) = true ->
  validateUrl P (trimmedTarget urlOverride st) = Some u ->
  fetch P (backendUrl R) (requestInit P u) = FetchResolves response ->
  Response.ok response = true ->
  Response.json response = JsonResolves data ->
  data <> JNull ->
  (forall members, data <> JObject members) ->
  status (stateAfter P R urlOverride st)
  = Some (displayRecord (str u) (str (js "DOWN")) (num zero)
            (str (Date_toISOString P)) undefined (str [])).
Proof.
  intros H Hv Hf Hok Hjson Hnull Hobject.
  pose proof (attempt_body P R u Hf Hok Hjson) as Hattempt.
  destruct data as [| b | x | s | items | members];
    try (rewrite (stateAfter_success P R urlOverride st H Hv Hattempt); reflexivity).
  - now elim Hnull.
  - now elim (Hobject members).
Qed.

Lemma non_object_body_is_down_witness :
  let listBody := Sample.platform (Sample.respond true 200 (JsonResolves (JArray []))) in
  status (stateAfter listBody App_jsx None Sample.typed)
  = Some (displayRecord (str (js "https://google.com")) (str (js "DOWN")) (num zero)
            (str (Date_toISOString listBody)) undefined (str [])).
Proof.
  intros listBody.
  apply (@non_object_body_is_down listBody App_jsx None Sample.typed
           (js "https://google.com")
           {| Response.ok := true; Response.status := 200;
              Response.json := JsonResolves (JArray []) |} (JArray []));
    try reflexivity; discriminate.
Defined.

(** X12. Which field of the body wins: a truthy [status] is shown as it is,
    whatever [is_up] says; [response_time] comes before [responseTime] and
    [status_code] before [statusCode]; with a falsy [status_code] the
    record's [statusCode] is [data.statusCode] as it is, [undefined]
    included; a truthy [message] is shown as it is. *)
Theorem body_field_precedence
    (P : Platform) (R : Revision) (urlOverride : option jsstring) (st : State)
    (u : jsstring) (response : Response.t) (data : Json) (record : JsObject) :
  string_truthy (trimmedTarget urlOverride st) = true ->
  validateUrl P (trimmedTarget urlOverride st) = Some u ->
  fetch P (backendUrl R) (requestInit P u) = FetchResolves response ->
  Response.ok response = true ->
  Response.json response = JsonResolves data ->
  status (stateAfter P R urlOverride st) = Some record ->
  (truthy (field data (js "status")) = true ->
   prop record (js "status") = field data (js "status"))
  /\ (truthy (field data (js "response_time")) = true ->
      prop record (js "responseTime") = field data (js "response_time"))
  /\ (truthy (field data (js "response_time")) = false ->
      truthy (field data (js "responseTime")) = true ->
      prop record (js "responseTime") = field data (js "responseTime"))
  /\ (truthy (field data (js "status_code")) = true ->
      prop record (js "statusCode") = field data (js "status_code"))
  /\ (truthy (field data (js "status_code")) = false ->
      prop record (js "statusCode") = field data (js "statusCode"))
  /\ (truthy (field data (js "message")) = true ->
      prop record (js "message") = field data (js "message")).
Proof.
  intros H Hv Hf Hok Hjson Hshown.
  destruct (shown_record P R urlOverride st H Hv Hf Hok Hjson Hshown) as [-> _].
  change (prop (recordOf P u data) (js "status"))
    with (or_else (field data (js "status"))
            (if truthy (field data (js "is_up")) then str (js "UP")
             else str (js "DOWN"))).
  change (prop (recordOf P u data) (js "responseTime"))
    with (or_else (or_else (field data (js "response_time"))
                     (field data (js "responseTime"))) (num zero)).
  change (prop (recordOf P u data) (js "statusCode"))
    with (or_else (field data (js "status_code")) (field data (js "statusCode"))).
  change (prop (recordOf P u data) (js "message"))
    with (or_else (field data (js "message")) (str [])).
  unfold or_else.
  repeat split; intros E; try intros E'; rewrite ?E; try rewrite E; rewrite ?E';
    try reflexivity.
Qed.

Lemma body_field_precedence_witness :
  prop (recordOf Sample.up (js "https://google.com") Sample.upBody) (js "responseTime")
    = num (S754_finite false 120 0)
  /\ prop (recordOf Sample.up (js "https://google.com") Sample.upBody) (js "statusCode")
     = num (S754_finite false 200 0).
Proof.
  destruct (@body_field_precedence Sample.up App_jsx None Sample.typed
              (js "https://google.com")
              {| Response.ok := true; Response.status := 200;
                 Response.json := JsonResolves Sample.upBody |} Sample.upBody
              (recordOf Sample.up (js "https://google.com") Sample.upBody)
              eq_refl eq_refl eq_refl eq_refl eq_refl eq_refl)
    as [_ [Htime [_ [Hcode _]]]].
  split; [rewrite Htime | rewrite Hcode]; reflexivity.
Defined.

(** X13. Every display record a check sets has a [url] and a [status] that
    are not falsy (the [url] is the validated one, with its scheme), a
    [responseTime] that is truthy or the number [0], a [message] that is
    truthy or the empty string, and the time of the mapping as
    [timestamp]: of its six fields only [statusCode] can be [undefined]. *)
Theorem display_record_filled
    (P : Platform) (R : Revision) (urlOverride : option jsstring) (st : State)
    (record : JsObject) :
  In (SetStatus (Some record)) (effectsOf P R urlOverride st) ->
  keys record = displayFields
  /\ (exists u,
        validateUrl P (trimmedTarget urlOverride st) = Some u
        /\ prop record (js "url") = str u
        /\ truthy (prop record (js "url")) = true)
  /\ truthy (prop record (js "status")) = true
  /\ (truthy (prop record (js "responseTime")) = true
      \/ prop record (js "responseTime") = num zero)
  /\ (truthy (prop record (js "message")) = true
      \/ prop record (js "message") = str [])
  /\ prop record (js "timestamp") = str (Date_toISOString P).
Proof.
  intros Hin.
  destruct (record_set_inv P R urlOverride st record Hin)
    as [u [data [H [Hv [_ [_ ->]]]]]].
  split; [reflexivity | split; [| split; [| split; [| split]]]].
  - exists u. split; [exact Hv | split; [reflexivity |]].
    exact (validateUrl_truthy _ _ Hv).
  - change (prop (recordOf P u data) (js "status"))
      with (or_else (field data (js "status"))
              (if truthy (field data (js "is_up")) then str (js "UP")
               else str (js "DOWN"))).
    apply truthy_status_default.
  - change (prop (recordOf P u data) (js "responseTime"))
      with (or_else (or_else (field data (js "response_time"))
                       (field data (js "responseTime"))) (num zero)).
    unfold or_else.
    destruct (truthy (field data (js "response_time"))) eqn:E1; rewrite ?E1; auto.
    destruct (truthy (field data (js "responseTime"))) eqn:E2; rewrite ?E2; auto.
  - change (prop (recordOf P u data) (js "message"))
      with (or_else (field data (js "message")) (str [])).
    unfold or_else.
    destruct (truthy (field data (js "message"))) eqn:E; auto.
  - reflexivity.
Qed.

Lemma display_record_filled_witness :
  truthy (prop (recordOf Sample.emptyObject (js "https://google.com") (JObject []))
            (js "status")) = true.
Proof.
  apply (@display_record_filled Sample.emptyObject App_jsx None Sample.typed
           (recordOf Sample.emptyObject (js "https://google.com") (JObject []))).
  vm_compute. auto 10.
Defined.

(** X14. The history entry of a successful check is the record on display
    with one more field: it has the six display fields and then [id], its
    [id] is the [Date.now()] of the moment, and every other field reads as
    in the record. *)
Theorem history_entry_extends_record
    (P : Platform) (R : Revision) (urlOverride : option jsstring) (st : State) :
  successful P R urlOverride st = true ->
  exists record entry,
    status (stateAfter P R urlOverride st) = Some record
    /\ history (stateAfter P R urlOverride st) = entry :: firstn 4 (history st)
    /\ keys entry = keys record ++ [js "id"]
    /\ prop entry (js "id") = num (Date_now P)
    /\ (forall k, k <> js "id" -> prop entry k = prop record k).
Proof.
  intros Hs.
  destruct (proj1 (successful_iff P R urlOverride st) Hs) as [record Hin].
  destruct (record_set_inv P R urlOverride st record Hin)
    as [u [data [H [Hv [Hattempt [_ Hrecord]]]]]].
  exists record, (historyEntry P record).
  rewrite (stateAfter_success P R urlOverride st H Hv Hattempt).
  split; [reflexivity | split; [reflexivity | split; [| split]]].
  - subst record. reflexivity.
  - unfold prop, historyEntry. now rewrite lookup_set_property_same.
  - intros k Hk. unfold prop, historyEntry.
    now rewrite lookup_set_property_other.
Qed.

Lemma history_entry_extends_record_witness :
  exists record entry,
    status (stateAfter Sample.up App_jsx None Sample.typed) = Some record
    /\ history (stateAfter Sample.up App_jsx None Sample.typed)
       = entry :: firstn 4 (history Sample.typed)
    /\ keys entry = keys record ++ [js "id"]
    /\ prop entry (js "id") = num (Date_now Sample.up)
    /\ (forall k, k <> js "id" -> prop entry k = prop record k).
Proof.
  apply (history_entry_extends_record Sample.up App_jsx None Sample.typed).
  reflexivity.
Defined.

Lemma Settled_handle (R : Revision) (st : State) (ev : UserEvent) :
  Settled st -> Settled (handle R st ev).
Proof.
  intros [Hloading [Hlen [Hentries Hstatus]]].
  destruct ev as [text | P o]; [repeat split; assumption |].
  cbn [handle]. unfold stateAfter.
  destruct (run_cases P R o st)
    as [[H Hrun] | [[H [Hv Hrun]] | [u [H [Hv Hrun]]]]]; rewrite Hrun;
    cbn [snd component]; try (repeat split; assumption).
  destruct (snd (attempt P R u)) as [e|result] eqn:Hattempt.
  - repeat split; try assumption.
  - destruct (attempt_record P R u Hattempt)
      as [response [data [_ [_ [_ [_ [-> _]]]]]]].
    split; [reflexivity | split; [| split; [| reflexivity]]].
    + cbn [settledState succeededState history List.length].
      rewrite length_firstn. lia.
    + cbn [settledState succeededState history]. constructor.
      * exact (@entryShape_historyEntry P _ u data Hv).
      * now apply Forall_firstn_keep.
Qed.

(** X15. Between the events of a session that starts in the initial state
    the component is settled: the loading flag is off (the input and the
    buttons are enabled), the history has at most five entries, each with
    the six display fields and [id], a [status] that is not falsy and a
    [url] with its scheme, and the status cell is [null] or a record with
    the six display fields. *)
Theorem session_settled (R : Revision) (evs : list UserEvent) (st : State) :
  Settled st -> Settled (session R evs st).
Proof.
  revert st. induction evs as [|ev evs IH]; intros st Hst; [exact Hst |].
  change (session R (ev :: evs) st) with (session R evs (handle R st ev)).
  apply IH. now apply Settled_handle.
Qed.

Lemma session_settled_witness :
  Settled (session quick_links
             [ Typed (js "google.com"); Checked Sample.up None;
               Checked Sample.offline (Some (js "github.com")) ]
             initialState).
Proof.
  apply session_settled.
  split; [reflexivity | split; [simpl; lia | split; [constructor | exact I]]].
Defined.

(** X16. The body of a response is read exactly when the response is ok:
    after a rejected [fetch] or a response that is not ok there is no call
    of [response.json()]. *)
Theorem body_read_only_when_ok
    (P : Platform) (R : Revision) (urlOverride : option jsstring) (st : State)
    (u : jsstring) :
  string_truthy (trimmedTarget urlOverride st) = true ->
  validateUrl P (trimmedTarget urlOverride st) = Some u ->
  filter isJsonRead (effectsOf P R urlOverride st)
  = match fetch P (backendUrl R) (requestInit P u) with
    | FetchRejects _ => []
    | FetchResolves response => if Response.ok response then [ResponseJson] else []
    end.
Proof.
  intros H Hv.
  rewrite (effectsOf_accepted P R urlOverride st H Hv), filter_accepted.
  replace (filter isJsonRead (prelude P R urlOverride u)) with (@nil Effect)
    by (unfold prelude; destruct urlOverride as [o|];
        [destruct (string_truthy o)|]; reflexivity).
  replace (filter isJsonRead (epilogue P st (snd (attempt P R u)))) with (@nil Effect)
    by (destruct (snd (attempt P R u)); reflexivity).
  unfold attempt.
  destruct (fetch P (backendUrl R) (requestInit P u)) as [e|response]; [reflexivity |].
  destruct (Response.ok response); [| reflexivity].
  destruct (Response.json response) as [e|[]]; reflexivity.
Qed.

Lemma body_read_only_when_ok_witness :
  filter isJsonRead (effectsOf Sample.serverError App_jsx None Sample.typed) = []
  /\ filter isJsonRead (effectsOf Sample.up App_jsx None Sample.typed) = [ResponseJson].
Proof.
  split.
  - rewrite (@body_read_only_when_ok Sample.serverError App_jsx None Sample.typed
               (js "https://google.com") eq_refl eq_refl).
    reflexivity.
  - rewrite (@body_read_only_when_ok Sample.up App_jsx None Sample.typed
               (js "https://google.com") eq_refl eq_refl).
    reflexivity.
Defined.

(** X17. The quick links: each of the eight sites of [popularSitesLeft] and
    [popularSitesRight] has a [url] that is not blank and carries no
    scheme, so a click on its button submits [https://] followed by that
    [url] (when the URL constructor accepts it) in exactly one request, and
    puts the [url] into the input. *)
Theorem quick_link_submits
    (P : Platform) (R : Revision) (st : State) (site : Site.t) :
  In site (popularSitesLeft ++ popularSitesRight) ->
  URL_constructs P (js "https://" ++ Site.url site) = true ->
  filter isFetch
    (effects (snd (quickLinkClick P R site {| component := st; effects := [] |})))
  = [Fetch (backendUrl R) (requestInit P (js "https://" ++ Site.url site))]
  /\ url (component (snd (quickLinkClick P R site {| component := st; effects := [] |})))
     = Site.url site.
Proof.
  intros Hin Hurl.
  change (quickLinkClick P R site {| component := st; effects := [] |})
    with (run P R (Some (Site.url site)) st).
  assert (Hsite : string_truthy (Site.url site) = true
                  /\ trim (Site.url site) = Site.url site
                  /\ startsWith (Site.url site) (js "http://") = false
                  /\ startsWith (Site.url site) (js "https://") = false).
  { simpl in Hin.
    repeat (destruct Hin as [<- | Hin]; [repeat split |]). contradiction. }
  destruct Hsite as [Htruthy [Htrim [Hhttp Hhttps]]].
  assert (Htarget : trimmedTarget (Some (Site.url site)) st = Site.url site)
    by (unfold trimmedTarget, override_or; now rewrite Htruthy).
  assert (H : string_truthy (trimmedTarget (Some (Site.url site)) st) = true)
    by now rewrite Htarget.
  assert (Hv : validateUrl P (trimmedTarget (Some (Site.url site)) st)
               = Some (js "https://" ++ Site.url site)).
  { rewrite Htarget, validateUrl_unfold, Hhttp, Hhttps. cbn [negb andb].
    now rewrite Hurl. }
  split.
  - exact (fetches_accepted P R (Some (Site.url site)) st H Hv).
  - fold (stateAfter P R (Some (Site.url site)) st).
    rewrite (stateAfter_accepted P R (Some (Site.url site)) st H Hv).
    destruct (snd (attempt P R _));
      cbn [settledState failedState succeededState url];
      unfold override_or; now rewrite Htruthy.
Qed.

Lemma quick_link_submits_witness :
  let site := {| Site.name := js "GitHub"; Site.url := js "github.com" |} in
  url (component (snd (quickLinkClick Sample.up quick_links site
                         {| component := initialState; effects := [] |})))
  = js "github.com".
Proof.
  intros site.
  apply (@quick_link_submits Sample.up quick_links initialState site).
  - simpl. auto 10.
  - reflexivity.
Defined.
